(** * Studien-Dashboard: grading model of [studien-dashboard.py]

    A shallow embedding of the data model and aggregation rules of the
    dashboard script: the grading scale, assessments, modules, semesters,
    degree programmes, users and the session controller.

    Python [float] is IEEE 754 binary64; it is modelled by the executable
    specification of binary floating point of the standard library
    ([spec_float] at precision 53 and maximal exponent 1024), so every
    grade computation below is the computation the interpreter performs.
    Python [int] is [Z].  Objects live in a store indexed by references, and
    the read-only methods are functions of the object tree reachable from
    their receiver. *)

From Stdlib Require Import ZArith QArith Floats.SpecFloat.
From stdpp Require Import gmap strings list fin_maps pretty.

Local Open Scope string_scope.
Local Open Scope Z_scope.

Set Warnings "-register-all".

(** ** Exceptions and results *)

(** The exceptions the modelled code can raise.  [UngueltigeNote v] is
    [ValueError(f"Ungültige Note: {v}")], raised by the grade setter.
    [OverflowError] and [ZeroDivisionError] are raised by the interpreter's
    float arithmetic, [TypeError] by a call with a keyword argument the
    callee does not have, [AttributeError] by a method call on [None] or on
    an object of another class. *)
Inductive exn : Type :=
  | UngueltigeNote (value : spec_float)
  | OverflowError
  | ZeroDivisionError
  | TypeError
  | AttributeError.

Inductive result (A : Type) : Type :=
  | Ok (a : A)
  | Raise (e : exn).

Arguments Ok {A} a.
Arguments Raise {A} e.

#[global] Instance result_ret : MRet result := fun A a => Ok a.

#[global] Instance result_bind : MBind result := fun A B k r =>
  match r with
  | Ok a => k a
  | Raise e => Raise e
  end.

(** [mapR f l] is the list comprehension [[f(x) for x in l]] for a body
    that may raise: elements are evaluated from left to right and the first
    exception ends the evaluation. *)
Fixpoint mapR {A B : Type} (f : A → result B) (l : list A) : result (list B) :=
  match l with
  | [] => Ok []
  | x :: l' => y ← f x; ys ← mapR f l'; Ok (y :: ys)
  end.

(** ** Python floats *)

Abbreviation float := spec_float.

Module PyFloat.

Definition prec : Z := 53.
Definition emax : Z := 1024.

Definition add : float → float → float := SFadd prec emax.
Definition mul : float → float → float := SFmul prec emax.
Definition div : float → float → float := SFdiv prec emax.

(** [x == y] and [x <= y]; both are [False] as soon as an operand is NaN. *)
Definition eqb : float → float → bool := SFeqb.
Definition leb : float → float → bool := SFleb.

Definition zero : float := S754_zero false.

(** The double nearest to an integer (ties to even). *)
Definition of_Z (z : Z) : float := binary_normalize prec emax z 0 false.

(** Conversion of an [int] operand in mixed arithmetic: an [int] whose
    nearest double would be infinite raises [OverflowError]. *)
Definition of_int (z : Z) : result float :=
  match of_Z z with
  | S754_infinity _ => Raise OverflowError
  | f => Ok f
  end.

(** [tenths n] is the double written with the decimal literal [n/10]:
    [tenths 33] is [3.3], [tenths 20] is [2.0].  The quotient of two
    exactly represented integers is correctly rounded, hence it is the
    double nearest to the decimal, which is what the parser produces. *)
Definition tenths (n : Z) : float := div (of_Z n) (of_Z 10).

(** [x / y] on floats: a zero divisor raises. *)
Definition truediv (x y : float) : result float :=
  if eqb y zero then Raise ZeroDivisionError else Ok (div x y).

(** [x * n] and [x / n] for a float [x] and an int [n]. *)
Definition mul_int (x : float) (n : Z) : result float :=
  fn ← of_int n; Ok (mul x fn).

Definition truediv_int (x : float) (n : Z) : result float :=
  fn ← of_int n; truediv x fn.

(** [sum(l)] for a list of floats: the accumulator starts at the int [0],
    which the first addition converts to [0.0].  Additions are made from
    left to right, as CPython up to 3.11 does (later versions compensate
    the additions; both agree on lists of at most one element). *)
Definition sum (l : list float) : float := fold_left add l zero.

(** The integer nearest to [n / d] for [0 < d], ties to the even one. *)
Definition round_half_even_div (n d : Z) : Z :=
  let q := n / d in
  let r := n mod d in
  match 2 * r ?= d with
  | Lt => q
  | Gt => q + 1
  | Eq => if Z.even q then q else q + 1
  end.

(** [round(x, 1)].  CPython prints the exact value of [x] with one digit
    after the decimal point, correctly rounded (ties to even), and reads
    the decimal back: the result is the double nearest to [q/10] where [q]
    is the integer nearest to [10 * x].  Infinities, NaN and zeros, and
    floats that are integers, round to themselves. *)
Definition round1 (x : float) : float :=
  match x with
  | S754_finite s m (Zneg k) =>
      match round_half_even_div (10 * Zpos m) (2 ^ Zpos k) with
      | Zpos q => div (S754_finite s q 0) (of_Z 10)
      | _ => S754_zero s
      end
  | _ => x
  end.

(** The rational number a finite float denotes. *)
Definition to_Q (x : float) : option Q :=
  match x with
  | S754_zero _ => Some 0%Q
  | S754_finite s m e =>
      Some (inject_Z (if s then Zneg m else Zpos m) * Qpower 2 e)%Q
  | _ => None
  end.

End PyFloat.

(** ** The grading scale: class [IUBewertungsmaßstab] *)

Module IUBewertungsmassstab.
Import PyFloat.

(** The dict [NOTEN_SKALA], in insertion order. *)
Definition NOTEN_SKALA : list (float * string) :=
  [ (tenths 10, "Sehr gut");
    (tenths 13, "Sehr gut");
    (tenths 17, "Gut");
    (tenths 20, "Gut");
    (tenths 23, "Gut");
    (tenths 27, "Befriedigend");
    (tenths 30, "Befriedigend");
    (tenths 33, "Befriedigend");
    (tenths 37, "Ausreichend");
    (tenths 40, "Ausreichend");
    (tenths 50, "Nicht ausreichend") ].

Definition BESTANDEN_GRENZE : float := tenths 40.

Definition ist_bestanden (note : float) : bool :=
  leb note BESTANDEN_GRENZE.

(** [NOTEN_SKALA.get(note, "Ungültige Note")]: keys are compared with
    [==]. *)
Definition note_zu_text (note : float) : string :=
  match List.find (fun kv => eqb note (fst kv)) NOTEN_SKALA with
  | Some kv => snd kv
  | None => "Ungültige Note"
  end.

Definition gueltige_noten : list float := map fst NOTEN_SKALA.

(** [value in gueltige_noten()]: list membership compares with [==]. *)
Definition ist_gueltig (value : float) : bool :=
  existsb (eqb value) gueltige_noten.

End IUBewertungsmassstab.

(** ** Enumerations, dates and dictionaries *)

Inductive PruefungsleistungsTyp : Type :=
  | KLAUSUR
  | ADVANCED_WORKBOOK
  | PORTFOLIO.

Inductive StudiengangTyp : Type :=
  | BACHELOR
  | MASTER
  | MBA.

Inductive ModulStatus : Type :=
  | NICHT_BEGONNEN
  | IN_BEARBEITUNG
  | BESTANDEN
  | NICHT_BESTANDEN.

(** The [.value] of the members of the three enumerations. *)
Definition PruefungsleistungsTyp_value (t : PruefungsleistungsTyp) : string :=
  match t with
  | KLAUSUR => "Klausur"
  | ADVANCED_WORKBOOK => "Advanced Workbook"
  | PORTFOLIO => "Portfolio"
  end.

Definition StudiengangTyp_value (t : StudiengangTyp) : string :=
  match t with
  | BACHELOR => "Bachelor"
  | MASTER => "Master"
  | MBA => "MBA"
  end.

Definition ModulStatus_value (s : ModulStatus) : string :=
  match s with
  | NICHT_BEGONNEN => "Nicht begonnen"
  | IN_BEARBEITUNG => "In Bearbeitung"
  | BESTANDEN => "Bestanden"
  | NICHT_BESTANDEN => "Nicht bestanden"
  end.

(** A [datetime.date]. *)
Record date : Type := Date { year : Z; month : Z; day : Z }.

(** [d1 < d2] on dates: the order of (year, month, day). *)
Definition date_ltb (d1 d2 : date) : bool :=
  (year d1 <? year d2)
  || ((year d1 =? year d2)
      && ((month d1 <? month d2)
          || ((month d1 =? month d2) && (day d1 <? day d2)))).

(** [s.zfill(n)] for the decimal writing of a non-negative number. *)
Definition zfill (n : nat) (s : string) : string :=
  String.concat "" (replicate (n - String.length s) "0") +:+ s.

(** [d.isoformat()], that is [YYYY-MM-DD]. *)
Definition isoformat (d : date) : string :=
  zfill 4 (pretty (year d)) +:+ "-" +:+ zfill 2 (pretty (month d))
  +:+ "-" +:+ zfill 2 (pretty (day d)).

(** The values the [to_dict] methods build.  A [dict] keeps its keys in
    insertion order. *)
Inductive pyval : Type :=
  | VNone
  | VBool (b : bool)
  | VInt (z : Z)
  | VFloat (f : float)
  | VStr (s : string)
  | VList (l : list pyval)
  | VDict (d : list (string * pyval)).

Definition VOptFloat (o : option float) : pyval :=
  match o with
  | Some f => VFloat f
  | None => VNone
  end.

(** [d[k]] for a dict [d]; [None] stands for a [KeyError]. *)
Definition dict_get (k : string) (d : pyval) : option pyval :=
  match d with
  | VDict kvs => snd <$> List.find (fun kv => String.eqb k (fst kv)) kvs
  | _ => None
  end.

(** ** Assessments: class [Pruefungsleistung] and its three subclasses *)

Module Pruefungsleistung.
Import PyFloat.

(** The attributes the subclasses add. *)
Inductive felder : Type :=
  | KlausurFelder (dauer_minuten : Z)
  | AdvancedWorkbookFelder (bearbeitungszeit_wochen : Z)
  | PortfolioFelder (anzahl_aufgaben bearbeitungszeit_wochen : Z).

Record t : Type := mk {
  typ : PruefungsleistungsTyp;
  _note : option float;
  datum : option date;
  versuch : Z;
  status : string;
  unterklasse : felder
}.

(** [__init__]: the grade is stored in [_note] directly and [status] is set
    to ["Offen"]; the subclass then stores its own attributes. *)
Definition init (typ : PruefungsleistungsTyp) (note : option float)
    (datum : option date) (versuch : Z) (unterklasse : felder) : t :=
  {| typ := typ; _note := note; datum := datum; versuch := versuch;
     status := "Offen"; unterklasse := unterklasse |}.

(** The property [note]. *)
Definition note (self : t) : option float := _note self.

(** The setter of [note].  It returns the outcome of the assignment and the
    state of the object after it. *)
Definition set_note (value : option float) (self : t) : result () * t :=
  match value with
  | Some v =>
      if negb (IUBewertungsmassstab.ist_gueltig v)
      then (Raise (UngueltigeNote v), self)
      else (Ok (),
            {| typ := typ self; _note := Some v; datum := datum self;
               versuch := versuch self;
               status := if IUBewertungsmassstab.ist_bestanden v
                         then "Bestanden" else "Nicht bestanden";
               unterklasse := unterklasse self |})
  | None =>
      (Ok (),
       {| typ := typ self; _note := None; datum := datum self;
          versuch := versuch self; status := "Offen";
          unterklasse := unterklasse self |})
  end.

Definition ist_bestanden (self : t) : bool :=
  match note self with
  | Some n => IUBewertungsmassstab.ist_bestanden n
  | None => false
  end.

Definition wurde_abgelegt (self : t) : bool :=
  match note self with
  | Some _ => true
  | None => false
  end.

Definition get_details (self : t) : pyval :=
  match unterklasse self with
  | KlausurFelder dauer_minuten =>
      VDict [ ("dauer_minuten", VInt dauer_minuten);
              ("beschreibung",
               VStr ("Klausur (" +:+ pretty dauer_minuten +:+ " Min.)")) ]
  | AdvancedWorkbookFelder bearbeitungszeit_wochen =>
      VDict [ ("bearbeitungszeit_wochen", VInt bearbeitungszeit_wochen);
              ("beschreibung",
               VStr ("Advanced Workbook (" +:+ pretty bearbeitungszeit_wochen
                     +:+ " Wochen)")) ]
  | PortfolioFelder anzahl_aufgaben bearbeitungszeit_wochen =>
      VDict [ ("anzahl_aufgaben", VInt anzahl_aufgaben);
              ("bearbeitungszeit_wochen", VInt bearbeitungszeit_wochen);
              ("beschreibung",
               VStr ("Portfolio (" +:+ pretty anzahl_aufgaben
                     +:+ " Aufgaben)")) ]
  end.

Definition to_dict (self : t) : pyval :=
  VDict [ ("typ", VStr (PruefungsleistungsTyp_value (typ self)));
          ("note", VOptFloat (note self));
          ("datum", match datum self with
                    | Some d => VStr (isoformat d)
                    | None => VNone
                    end);
          ("versuch", VInt (versuch self));
          ("status", VStr (status self));
          ("details", get_details self) ].

End Pruefungsleistung.

(** The constructors of the subclasses; the defaults of the source are
    [dauer_minuten = 120] for [Klausur], [bearbeitungszeit_wochen = 4] for
    [AdvancedWorkbook], [anzahl_aufgaben = 3] and
    [bearbeitungszeit_wochen = 8] for [Portfolio], and [note = None],
    [datum = None], [versuch = 1] for all of them. *)
Definition Klausur (dauer_minuten : Z) (note : option float)
    (datum : option date) (versuch : Z) : Pruefungsleistung.t :=
  Pruefungsleistung.init KLAUSUR note datum versuch
    (Pruefungsleistung.KlausurFelder dauer_minuten).

Definition AdvancedWorkbook (bearbeitungszeit_wochen : Z) (note : option float)
    (datum : option date) (versuch : Z) : Pruefungsleistung.t :=
  Pruefungsleistung.init ADVANCED_WORKBOOK note datum versuch
    (Pruefungsleistung.AdvancedWorkbookFelder bearbeitungszeit_wochen).

Definition Portfolio (anzahl_aufgaben bearbeitungszeit_wochen : Z)
    (note : option float) (datum : option date) (versuch : Z)
    : Pruefungsleistung.t :=
  Pruefungsleistung.init PORTFOLIO note datum versuch
    (Pruefungsleistung.PortfolioFelder anzahl_aufgaben bearbeitungszeit_wochen).

(** [foldlR f a l] is a [for] loop over [l] that updates the local
    variables [a] with a body [f] that may raise. *)
Fixpoint foldlR {A B : Type} (f : A → B → result A) (a : A) (l : list B)
    : result A :=
  match l with
  | [] => Ok a
  | x :: l' => a' ← f a x; foldlR f a' l'
  end.

(** [sum(l)] for a list of ints. *)
Definition sum_int (l : list Z) : Z := fold_left Z.add l 0.

(** ** Modules: class [Modul]

    The containers are parameterised by what their lists hold: references
    in the store, or the objects themselves in the tree a read-only method
    traverses. *)

Module Modul.
Import PyFloat.

Record t (P : Type) : Type := mk {
  titel : string;
  ects : Z;
  pflicht : bool;
  pruefungsleistungen : list P
}.
Arguments mk {P}.
Arguments titel {P}.
Arguments ects {P}.
Arguments pflicht {P}.
Arguments pruefungsleistungen {P}.

Definition init {P : Type} (titel : string) (ects : Z) (pflicht : bool) : t P :=
  mk titel ects pflicht [].

Definition add_pruefungsleistung {P : Type} (self : t P) (pruefungsleistung : P)
    : t P :=
  mk (titel self) (ects self) (pflicht self)
     (pruefungsleistungen self ++ [pruefungsleistung]).

Abbreviation baum := (t Pruefungsleistung.t).

Definition ist_bestanden (self : baum) : bool :=
  match pruefungsleistungen self with
  | [] => false
  | pls => forallb Pruefungsleistung.ist_bestanden pls
  end.

Definition get_status (self : baum) : ModulStatus :=
  match pruefungsleistungen self with
  | [] => NICHT_BEGONNEN
  | pls =>
      let alle_abgelegt := forallb Pruefungsleistung.wurde_abgelegt pls in
      if alle_abgelegt
      then (if ist_bestanden self then BESTANDEN else NICHT_BESTANDEN)
      else IN_BEARBEITUNG
  end.

Definition erreichte_ects (self : baum) : Z :=
  if ist_bestanden self then ects self else 0.

Definition get_durchschnittsnote (self : baum) : result (option float) :=
  let noten := omap Pruefungsleistung.note (pruefungsleistungen self) in
  match noten with
  | [] => Ok None
  | _ =>
      q ← truediv_int (PyFloat.sum noten) (Z.of_nat (length noten));
      Ok (Some (round1 q))
  end.

Definition to_dict (self : baum) : result pyval :=
  durchschnittsnote ← get_durchschnittsnote self;
  Ok (VDict [ ("titel", VStr (titel self));
              ("ects", VInt (ects self));
              ("pflicht", VBool (pflicht self));
              ("status", VStr (ModulStatus_value (get_status self)));
              ("durchschnittsnote", VOptFloat durchschnittsnote);
              ("pruefungsleistungen",
               VList (map Pruefungsleistung.to_dict
                          (pruefungsleistungen self))) ]).

(** The body of the loops of [Semester.durchschnittsnote] and
    [Studiengang.berechne_gesamtnote] on the local variables
    [(gewichtete_summe, gesamt_ects)]. *)
Definition gewichte (acc : float * Z) (modul : baum) : result (float * Z) :=
  let '(gewichtete_summe, gesamt_ects) := acc in
  if ist_bestanden modul then
    note ← get_durchschnittsnote modul;
    match note with
    | Some n =>
        p ← mul_int n (ects modul);
        Ok (add gewichtete_summe p, gesamt_ects + ects modul)
    | None => Ok acc
    end
  else Ok acc.

(** The [return] statement that ends both loops. *)
Definition gewichtetes_mittel (acc : float * Z) : result (option float) :=
  let '(gewichtete_summe, gesamt_ects) := acc in
  if 0 <? gesamt_ects
  then q ← truediv_int gewichtete_summe gesamt_ects; Ok (Some (round1 q))
  else Ok None.

End Modul.

(** ** Semesters: class [Semester] *)

Module Semester.
Import PyFloat.

Record t (M : Type) : Type := mk {
  nummer : Z;
  startdatum : date;
  enddatum : date;
  module : list M
}.
Arguments mk {M}.
Arguments nummer {M}.
Arguments startdatum {M}.
Arguments enddatum {M}.
Arguments module {M}.

Definition init {M : Type} (nummer : Z) (startdatum enddatum : date) : t M :=
  mk nummer startdatum enddatum [].

Definition add_modul {M : Type} (self : t M) (modul : M) : t M :=
  mk (nummer self) (startdatum self) (enddatum self) (module self ++ [modul]).

Abbreviation baum := (t Modul.baum).

Definition erreichte_ects (self : baum) : Z :=
  sum_int (map Modul.erreichte_ects (module self)).

Definition gesamt_ects_semester (self : baum) : Z :=
  sum_int (map Modul.ects (module self)).

Definition durchschnittsnote (self : baum) : result (option float) :=
  acc ← foldlR Modul.gewichte (zero, 0) (module self);
  Modul.gewichtetes_mittel acc.

Definition to_dict (self : baum) : result pyval :=
  note ← durchschnittsnote self;
  module_dicts ← mapR Modul.to_dict (module self);
  Ok (VDict [ ("nummer", VInt (nummer self));
              ("startdatum", VStr (isoformat (startdatum self)));
              ("enddatum", VStr (isoformat (enddatum self)));
              ("gesamt_ects", VInt (gesamt_ects_semester self));
              ("erreichte_ects", VInt (erreichte_ects self));
              ("durchschnittsnote", VOptFloat note);
              ("module", VList module_dicts) ]).

End Semester.

(** ** Degree programmes: class [Studiengang] *)

Module Studiengang.
Import PyFloat.

Record t (S : Type) : Type := mk {
  name : string;
  abschluss : string;
  typ : StudiengangTyp;
  start_studium : date;
  ziel_note : float;
  ziel_dauer_semester : Z;
  semester : list S
}.
Arguments mk {S}.
Arguments name {S}.
Arguments abschluss {S}.
Arguments typ {S}.
Arguments start_studium {S}.
Arguments ziel_note {S}.
Arguments ziel_dauer_semester {S}.
Arguments semester {S}.

(** The defaults of the source are [ziel_note = 2.0] and
    [ziel_dauer_semester = 6]. *)
Definition init {S : Type} (name abschluss : string) (typ : StudiengangTyp)
    (start_studium : date) (ziel_note : float) (ziel_dauer_semester : Z) : t S :=
  mk name abschluss typ start_studium ziel_note ziel_dauer_semester [].

Definition add_semester {S : Type} (self : t S) (sem : S) : t S :=
  mk (name self) (abschluss self) (typ self) (start_studium self)
     (ziel_note self) (ziel_dauer_semester self) (semester self ++ [sem]).

Abbreviation baum := (t Semester.baum).

Definition berechne_gesamt_ects (self : baum) : Z :=
  sum_int (map Semester.erreichte_ects (semester self)).

Definition berechne_gesamtnote (self : baum) : result (option float) :=
  acc ← foldlR (fun acc sem => foldlR Modul.gewichte acc (Semester.module sem))
               (zero, 0) (semester self);
  Modul.gewichtetes_mittel acc.

Definition ist_im_zeitplan (self : baum) : bool :=
  let aktuelles_semester := Z.of_nat (length (semester self)) in
  aktuelles_semester <=? ziel_dauer_semester self.

Definition ziel_erreicht (self : baum) : result bool :=
  gesamtnote ← berechne_gesamtnote self;
  Ok (match gesamtnote with
      | Some g => leb g (ziel_note self)
      | None => false
      end).

Definition to_dict (self : baum) : result pyval :=
  gesamtnote ← berechne_gesamtnote self;
  erreicht ← ziel_erreicht self;
  semester_dicts ← mapR Semester.to_dict (semester self);
  Ok (VDict [ ("name", VStr (name self));
              ("abschluss", VStr (abschluss self));
              ("typ", VStr (StudiengangTyp_value (typ self)));
              ("start_studium", VStr (isoformat (start_studium self)));
              ("ziel_note", VFloat (ziel_note self));
              ("ziel_dauer_semester", VInt (ziel_dauer_semester self));
              ("gesamt_ects", VInt (berechne_gesamt_ects self));
              ("gesamtnote", VOptFloat gesamtnote);
              ("im_zeitplan", VBool (ist_im_zeitplan self));
              ("ziel_erreicht", VBool erreicht);
              ("semester", VList semester_dicts) ]).

End Studiengang.

(** ** Users: class [User] *)

Module User.

(** [erstellt_am] holds the reading of the clock at construction; the
    constructor takes it as its last argument. *)
Record t (G : Type) : Type := mk {
  user_id : string;
  name : string;
  email : string;
  rolle : string;
  studiengaenge : list G;
  erstellt_am : Z
}.
Arguments mk {G}.
Arguments user_id {G}.
Arguments name {G}.
Arguments email {G}.
Arguments rolle {G}.
Arguments studiengaenge {G}.
Arguments erstellt_am {G}.

(** The default of the source is [rolle = "Student"]. *)
Definition init {G : Type} (user_id name email rolle : string) (jetzt : Z) : t G :=
  mk user_id name email rolle [] jetzt.

Definition add_studiengang {G : Type} (self : t G) (studiengang : G) : t G :=
  mk (user_id self) (name self) (email self) (rolle self)
     (studiengaenge self ++ [studiengang]) (erstellt_am self).

(** [self.studiengaenge[-1] if self.studiengaenge else None]. *)
Definition get_aktueller_studiengang {G : Type} (self : t G) : option G :=
  last (studiengaenge self).

Abbreviation baum := (t Studiengang.baum).

Definition zeige_dashboard (self : baum) : result pyval :=
  match get_aktueller_studiengang self with
  | None => Ok (VDict [ ("error", VStr "Kein Studiengang gefunden") ])
  | Some aktueller_studiengang =>
      studiengang_dict ← Studiengang.to_dict aktueller_studiengang;
      gesamtnote ← Studiengang.berechne_gesamtnote aktueller_studiengang;
      erreicht ← Studiengang.ziel_erreicht aktueller_studiengang;
      Ok (VDict
            [ ("user", VDict [ ("name", VStr (name self));
                               ("email", VStr (email self));
                               ("rolle", VStr (rolle self)) ]);
              ("studiengang", studiengang_dict);
              ("fortschritt",
               VDict [ ("gesamt_ects",
                        VInt (Studiengang.berechne_gesamt_ects
                                aktueller_studiengang));
                       ("gesamtnote", VOptFloat gesamtnote);
                       ("im_zeitplan",
                        VBool (Studiengang.ist_im_zeitplan
                                 aktueller_studiengang));
                       ("ziel_erreicht", VBool erreicht) ]) ])
  end.

End User.

(** ** The session controller: class [DashboardController] *)

Module DashboardController.

Record t (U : Type) : Type := mk {
  users : gmap string U;
  current_user : option U
}.
Arguments mk {U}.
Arguments users {U}.
Arguments current_user {U}.

Definition init {U : Type} : t U := mk ∅ None.

Abbreviation baum := (t User.baum).

Definition get_dashboard_data (self : baum) : result (option pyval) :=
  match current_user self with
  | None => Ok None
  | Some current_user => d ← User.zeige_dashboard current_user; Ok (Some d)
  end.

End DashboardController.

(** ** The object store

    Python objects are shared and mutated in place: a semester gets its
    modules after it was attached to the programme, and the controller's
    [current_user] is the very object held in [users].  The store maps
    references to object states whose lists hold references. *)

Module Store.

Definition loc : Type := nat.

Inductive obj : Type :=
  | OPruefungsleistung (o : Pruefungsleistung.t)
  | OModul (o : Modul.t loc)
  | OSemester (o : Semester.t loc)
  | OStudiengang (o : Studiengang.t loc)
  | OUser (o : User.t loc)
  | OController (o : DashboardController.t loc).

Record t : Type := mk {
  objs : gmap loc obj;
  next : loc
}.

Definition empty : t := mk ∅ 0%nat.

(** Commands on the store: the outcome, and the store after the command. *)
Definition M (A : Type) : Type := t → result (A * t).

#[global] Instance M_ret : MRet M := fun A a st => Ok (a, st).

#[global] Instance M_bind : MBind M := fun A B k m st =>
  match m st with
  | Ok (a, st') => k a st'
  | Raise e => Raise e
  end.

Definition throw {A : Type} (e : exn) : M A := fun _ => Raise e.

(** The creation of an object. *)
Definition alloc (o : obj) : M loc := fun st =>
  Ok (next st, mk (<[next st := o]> (objs st)) (S (next st))).

(** The assignment of a new state to the object at [l]. *)
Definition put (l : loc) (o : obj) : M () := fun st =>
  Ok ((), mk (<[l := o]> (objs st)) (next st)).

Definition get_modul (l : loc) : M (Modul.t loc) := fun st =>
  match objs st !! l with
  | Some (OModul o) => Ok (o, st)
  | _ => Raise AttributeError
  end.

Definition get_semester (l : loc) : M (Semester.t loc) := fun st =>
  match objs st !! l with
  | Some (OSemester o) => Ok (o, st)
  | _ => Raise AttributeError
  end.

Definition get_studiengang (l : loc) : M (Studiengang.t loc) := fun st =>
  match objs st !! l with
  | Some (OStudiengang o) => Ok (o, st)
  | _ => Raise AttributeError
  end.

Definition get_user (l : loc) : M (User.t loc) := fun st =>
  match objs st !! l with
  | Some (OUser o) => Ok (o, st)
  | _ => Raise AttributeError
  end.

Definition get_controller (l : loc) : M (DashboardController.t loc) := fun st =>
  match objs st !! l with
  | Some (OController o) => Ok (o, st)
  | _ => Raise AttributeError
  end.

(** *** The object tree reachable from a reference *)

Definition pruefungsleistung (st : t) (l : loc) : option Pruefungsleistung.t :=
  match objs st !! l with
  | Some (OPruefungsleistung o) => Some o
  | _ => None
  end.

Definition modul (st : t) (l : loc) : option Modul.baum :=
  match objs st !! l with
  | Some (OModul o) =>
      pls ← mapM (pruefungsleistung st) (Modul.pruefungsleistungen o);
      Some (Modul.mk (Modul.titel o) (Modul.ects o) (Modul.pflicht o) pls)
  | _ => None
  end.

Definition semester (st : t) (l : loc) : option Semester.baum :=
  match objs st !! l with
  | Some (OSemester o) =>
      ms ← mapM (modul st) (Semester.module o);
      Some (Semester.mk (Semester.nummer o) (Semester.startdatum o)
              (Semester.enddatum o) ms)
  | _ => None
  end.

Definition studiengang (st : t) (l : loc) : option Studiengang.baum :=
  match objs st !! l with
  | Some (OStudiengang o) =>
      ss ← mapM (semester st) (Studiengang.semester o);
      Some (Studiengang.mk (Studiengang.name o) (Studiengang.abschluss o)
              (Studiengang.typ o) (Studiengang.start_studium o)
              (Studiengang.ziel_note o) (Studiengang.ziel_dauer_semester o) ss)
  | _ => None
  end.

Definition user (st : t) (l : loc) : option User.baum :=
  match objs st !! l with
  | Some (OUser o) =>
      gs ← mapM (studiengang st) (User.studiengaenge o);
      Some (User.mk (User.user_id o) (User.name o) (User.email o)
              (User.rolle o) gs (User.erstellt_am o))
  | _ => None
  end.

Definition controller (st : t) (l : loc) : option DashboardController.baum :=
  match objs st !! l with
  | Some (OController o) =>
      cu ← match DashboardController.current_user o with
           | Some u => Some <$> user st u
           | None => Some None
           end;
      Some (DashboardController.mk
              (omap (user st) (DashboardController.users o)) cu)
  | _ => None
  end.

End Store.

(** ** Methods that create or mutate objects *)

Module Methoden.
Import Store.

(** [self.pruefungsleistungen.append(pruefungsleistung)]. *)
Definition Modul_add_pruefungsleistung (self pruefungsleistung : loc) : M () :=
  o ← get_modul self;
  put self (OModul (Modul.add_pruefungsleistung o pruefungsleistung)).

Definition Semester_add_modul (self modul : loc) : M () :=
  o ← get_semester self;
  put self (OSemester (Semester.add_modul o modul)).

Definition Studiengang_add_semester (self semester : loc) : M () :=
  o ← get_studiengang self;
  put self (OStudiengang (Studiengang.add_semester o semester)).

Definition User_add_studiengang (self studiengang : loc) : M () :=
  o ← get_user self;
  put self (OUser (User.add_studiengang o studiengang)).

(** [DashboardController()]. *)
Definition DashboardController_new : M loc :=
  alloc (OController DashboardController.init).

(** [create_user]: the new user is stored under [user_id], whatever
    [self.users] held under that key before. *)
Definition create_user (self : loc) (user_id name email rolle : string)
    (jetzt : Z) : M loc :=
  user ← alloc (OUser (User.init user_id name email rolle jetzt));
  c ← get_controller self;
  _ ← put self (OController
         (DashboardController.mk
            (<[user_id := user]> (DashboardController.users c))
            (DashboardController.current_user c)));
  mret user.

Definition login_user (self : loc) (user_id : string) : M bool :=
  c ← get_controller self;
  match DashboardController.users c !! user_id with
  | Some u =>
      _ ← put self (OController
             (DashboardController.mk (DashboardController.users c) (Some u)));
      mret true
  | None => mret false
  end.

Definition create_studiengang (self : loc) (name abschluss : string)
    (typ : StudiengangTyp) (start_studium : date) (ziel_note : float)
    (ziel_dauer_semester : Z) : M (option loc) :=
  c ← get_controller self;
  match DashboardController.current_user c with
  | None => mret None
  | Some current_user =>
      studiengang ← alloc (OStudiengang
                       (Studiengang.init name abschluss typ start_studium
                          ziel_note ziel_dauer_semester));
      _ ← User_add_studiengang current_user studiengang;
      mret (Some studiengang)
  end.

(** The keyword arguments of the factory; [None] is an argument that was
    not given. *)
Record kwargs : Type := Kwargs {
  kw_dauer_minuten : option Z;
  kw_anzahl_aufgaben : option Z;
  kw_bearbeitungszeit_wochen : option Z;
  kw_note : option float;
  kw_datum : option date;
  kw_versuch : option Z
}.

(** [create_pruefungsleistung]: the dispatch on [typ].  Every member of
    the enumeration has its branch, so the final [raise] of the source is
    never reached; a keyword the chosen class does not have is a
    [TypeError]. *)
Definition create_pruefungsleistung (self : loc) (typ : PruefungsleistungsTyp)
    (kw : kwargs) : M loc :=
  let versuch := default 1 (kw_versuch kw) in
  match typ with
  | KLAUSUR =>
      match kw_anzahl_aufgaben kw, kw_bearbeitungszeit_wochen kw with
      | None, None =>
          alloc (OPruefungsleistung
                   (Klausur (default 120 (kw_dauer_minuten kw))
                      (kw_note kw) (kw_datum kw) versuch))
      | _, _ => throw TypeError
      end
  | ADVANCED_WORKBOOK =>
      match kw_dauer_minuten kw, kw_anzahl_aufgaben kw with
      | None, None =>
          alloc (OPruefungsleistung
                   (AdvancedWorkbook
                      (default 4 (kw_bearbeitungszeit_wochen kw))
                      (kw_note kw) (kw_datum kw) versuch))
      | _, _ => throw TypeError
      end
  | PORTFOLIO =>
      match kw_dauer_minuten kw with
      | None =>
          alloc (OPruefungsleistung
                   (Portfolio (default 3 (kw_anzahl_aufgaben kw))
                      (default 8 (kw_bearbeitungszeit_wochen kw))
                      (kw_note kw) (kw_datum kw) versuch))
      | _ => throw TypeError
      end
  end.

(** [get_dashboard_data] on the controller at [self]. *)
Definition get_dashboard_data (st : Store.t) (self : loc)
    : option (result (option pyval)) :=
  DashboardController.get_dashboard_data <$> Store.controller st self.

End Methoden.

(** ** The sample data: [create_iu_medizinische_informatik_data] *)

Module Beispiel.
Import Store Methoden PyFloat.

Definition create_iu_medizinische_informatik_data (jetzt : Z) : M loc :=
  controller ← DashboardController_new;
  user ← create_user controller "IU14125513" "Christine Münzberg"
            "christine_muenzberg@web.de" "Student" jetzt;
  _ ← login_user controller "IU14125513";
  angelegt ← create_studiengang controller "Medizinische Informatik"
               "Bachelor of Science" BACHELOR (Date 2025 1 1) (tenths 20) 8;
  match angelegt with
  | None => throw AttributeError
  | Some studiengang =>
      semester1 ← alloc (OSemester
                     (Semester.init 1 (Date 2025 1 1) (Date 2025 6 30)));
      _ ← Studiengang_add_semester studiengang semester1;

      einfuehrung_wiss ← alloc (OModul (Modul.init
        "Einführung in das wissenschaftliche Arbeiten für IT und Technik"
        5 true));
      workbook_wiss ← create_pruefungsleistung controller ADVANCED_WORKBOOK
        (Kwargs None None (Some 6) (Some (tenths 20))
           (Some (Date 2025 3 29)) None);
      _ ← Modul_add_pruefungsleistung einfuehrung_wiss workbook_wiss;
      _ ← Semester_add_modul semester1 einfuehrung_wiss;

      medizin_nichtmed ← alloc (OModul (Modul.init
        "Medizin für Nichtmediziner:innen I" 5 true));
      klausur_med ← create_pruefungsleistung controller KLAUSUR
        (Kwargs (Some 90) None None (Some (tenths 33))
           (Some (Date 2024 12 10)) None);
      _ ← Modul_add_pruefungsleistung medizin_nichtmed klausur_med;
      _ ← Semester_add_modul semester1 medizin_nichtmed;

      programmierung_python ← alloc (OModul (Modul.init
        "Einführung in die Programmierung mit Python" 5 true));
      klausur_prog ← create_pruefungsleistung controller KLAUSUR
        (Kwargs (Some 90) None None (Some (tenths 20))
           (Some (Date 2025 3 1)) None);
      _ ← Modul_add_pruefungsleistung programmierung_python klausur_prog;
      _ ← Semester_add_modul semester1 programmierung_python;

      ehealth ← alloc (OModul (Modul.init "E-Health" 5 true));
      klausur_ehealth ← create_pruefungsleistung controller KLAUSUR
        (Kwargs (Some 90) None None (Some (tenths 20))
           (Some (Date 2025 2 1)) None);
      _ ← Modul_add_pruefungsleistung ehealth klausur_ehealth;
      _ ← Semester_add_modul semester1 ehealth;

      projekt_oop ← alloc (OModul (Modul.init
        "Projekt: Objektorientierte und funktionale Programmierung mit Python"
        5 true));
      portfolio_oop ← create_pruefungsleistung controller PORTFOLIO
        (Kwargs None (Some 4) (Some 6) None None None);
      _ ← Modul_add_pruefungsleistung projekt_oop portfolio_oop;
      _ ← Semester_add_modul semester1 projekt_oop;

      mret controller
  end.

(** The controller and the store the script leaves behind when it starts
    in the empty store. *)
Definition lauf : result (loc * Store.t) :=
  create_iu_medizinische_informatik_data 0 Store.empty.

(** The programme the dashboard of the sample data reports on: the active
    programme of the logged-in user, once the script has run. *)
Definition studiengang (jetzt : Z) : option Studiengang.baum :=
  match create_iu_medizinische_informatik_data jetzt Store.empty with
  | Ok (controller, st) =>
      c ← Store.controller st controller;
      u ← DashboardController.current_user c;
      User.get_aktueller_studiengang u
  | Raise _ => None
  end.

(** A module of [ects] credits whose one written exam is graded [n/10]. *)
Definition modul_mit_note (titel : string) (ects n : Z) : Modul.baum :=
  Modul.mk titel ects true [Klausur 120 (Some (tenths n)) None 1].

(** A semester of two passed modules: 5 credits with average 2.0 and 5
    credits with average 3.3. *)
Definition semester_zwei_module : Semester.baum :=
  Semester.mk 1 (Date 2025 1 1) (Date 2025 6 30)
    [modul_mit_note "E-Health" 5 20;
     modul_mit_note "Medizin für Nichtmediziner:innen I" 5 33].

(** A user whose one programme holds that semester. *)
Definition user_zwei_module : User.baum :=
  User.mk "IU14125513" "Christine Münzberg" "christine_muenzberg@web.de"
    "Student"
    [Studiengang.mk "Medizinische Informatik" "Bachelor of Science" BACHELOR
       (Date 2025 1 1) (tenths 20) 8 [semester_zwei_module]]
    0.

End Beispiel.

(** ** The weighted average as the specification words it *)

Module Spezifikation.
Import PyFloat.

(** What a module contributes to the two sums: its average times its
    credits, and its credits, when it is passed and has an average. *)
Definition beitrag (m : Modul.baum) : result (option (float * Z)) :=
  if Modul.ist_bestanden m then
    note ← Modul.get_durchschnittsnote m;
    match note with
    | Some n => p ← mul_int n (Modul.ects m); Ok (Some (p, Modul.ects m))
    | None => Ok None
    end
  else Ok None.

(** The sum of average × credits over the passed modules that have an
    average, divided by the sum of the credits of those same modules,
    rounded to one decimal; null if there is no such module. *)
Definition gewichteter_durchschnitt (ms : list Modul.baum)
    : result (option float) :=
  bs ← mapR beitrag ms;
  match omap id bs with
  | [] => Ok None
  | zs =>
      q ← truediv_int (PyFloat.sum (map fst zs)) (sum_int (map snd zs));
      Ok (Some (round1 q))
  end.

End Spezifikation.

(** * Properties *)

Import PyFloat.

(** ** The grading scale *)

Lemma gueltige_noten_tenths :
  IUBewertungsmassstab.gueltige_noten
  = map tenths [10; 13; 17; 20; 23; 27; 30; 33; 37; 40; 50].
Proof. reflexivity. Qed.

(** C7.  A permitted grade passes exactly when the number it denotes is at
    most 4; in particular 4.0 passes and 5.0 fails. *)
Theorem ist_bestanden_iff_le_4 (g : float)
    (Hg : In g IUBewertungsmassstab.gueltige_noten) :
  (∃ q : Q, to_Q g = Some q
            ∧ (IUBewertungsmassstab.ist_bestanden g = true ↔ (q <= 4)%Q))
  ∧ IUBewertungsmassstab.ist_bestanden (tenths 40) = true
  ∧ IUBewertungsmassstab.ist_bestanden (tenths 50) = false.
Proof.
  split; [| split; reflexivity].
  rewrite gueltige_noten_tenths in Hg. simpl in Hg.
  repeat (destruct Hg as [<- | Hg]; [
    eexists; split; [vm_compute; reflexivity |];
    rewrite <- Qle_bool_iff; vm_compute; split; congruence |]).
  destruct Hg.
Qed.

Lemma ist_bestanden_iff_le_4_witness :
  In (tenths 33) IUBewertungsmassstab.gueltige_noten
  ∧ (∃ q : Q, to_Q (tenths 33) = Some q
       ∧ (IUBewertungsmassstab.ist_bestanden (tenths 33) = true ↔ (q <= 4)%Q)).
Proof.
  assert (H : In (tenths 33) IUBewertungsmassstab.gueltige_noten).
  { vm_compute. do 7 right. left. reflexivity. }
  split; [exact H |].
  exact (proj1 (ist_bestanden_iff_le_4 (tenths 33) H)).
Defined.

(** ** Assessments *)

(** C2.  The setter refuses a value that equals no permitted grade: it
    raises and the object is as before; assigning [None] clears the grade
    and sets the status to ["Offen"]. *)
Theorem set_note_ungueltig (self : Pruefungsleistung.t) (v : float)
    (Hv : ∀ g, In g IUBewertungsmassstab.gueltige_noten → eqb v g = false) :
  Pruefungsleistung.set_note (Some v) self = (Raise (UngueltigeNote v), self)
  ∧ fst (Pruefungsleistung.set_note None self) = Ok ()
  ∧ Pruefungsleistung.note (snd (Pruefungsleistung.set_note None self)) = None
  ∧ Pruefungsleistung.status (snd (Pruefungsleistung.set_note None self))
    = "Offen".
Proof.
  split; [| repeat split].
  unfold Pruefungsleistung.set_note.
  assert (Hf : IUBewertungsmassstab.ist_gueltig v = false).
  { unfold IUBewertungsmassstab.ist_gueltig.
    apply not_true_is_false. intros Hex.
    apply existsb_exists in Hex as (g & Hin & Heq).
    rewrite (Hv g Hin) in Heq. discriminate. }
  rewrite Hf. reflexivity.
Qed.

Lemma set_note_ungueltig_witness :
  let self := Klausur 90 (Some (tenths 20)) None 1 in
  Pruefungsleistung.set_note (Some (tenths 25)) self
  = (Raise (UngueltigeNote (tenths 25)), self).
Proof.
  intros self.
  refine (proj1 (set_note_ungueltig self (tenths 25) _)).
  intros g Hg. rewrite gueltige_noten_tenths in Hg. simpl in Hg.
  repeat (destruct Hg as [<- | Hg]; [vm_compute; reflexivity |]).
  destruct Hg.
Defined.

(** C9.  The constructors store the initial grade as it is given, in or out
    of the scale, and leave the status at ["Offen"]: the setter does not
    run at construction. *)
Theorem init_note_ungeprueft (typ : PruefungsleistungsTyp) (v : float)
    (datum : option date) (versuch : Z) (u : Pruefungsleistung.felder)
    (dauer_minuten anzahl_aufgaben bearbeitungszeit_wochen : Z) :
  let gespeichert (p : Pruefungsleistung.t) :=
    Pruefungsleistung.note p = Some v
    ∧ Pruefungsleistung.status p = "Offen"
    ∧ Pruefungsleistung.status p ≠ "Bestanden"
    ∧ Pruefungsleistung.status p ≠ "Nicht bestanden" in
  gespeichert (Pruefungsleistung.init typ (Some v) datum versuch u)
  ∧ gespeichert (Klausur dauer_minuten (Some v) datum versuch)
  ∧ gespeichert (AdvancedWorkbook bearbeitungszeit_wochen (Some v) datum versuch)
  ∧ gespeichert (Portfolio anzahl_aufgaben bearbeitungszeit_wochen (Some v)
                   datum versuch).
Proof. repeat split; discriminate. Qed.

(** The contrast C9 draws, on one value: 6.0 is not on the scale; the
    constructor keeps it, the setter refuses it. *)
Example init_gegen_setter :
  let p := Klausur 120 (Some (tenths 60)) None 1 in
  IUBewertungsmassstab.ist_gueltig (tenths 60) = false
  ∧ Pruefungsleistung.note p = Some (tenths 60)
  ∧ Pruefungsleistung.set_note (Some (tenths 60)) p
    = (Raise (UngueltigeNote (tenths 60)), p).
Proof. repeat split. Qed.

(** ** Modules *)

(** C6.  A module without assessments is not passed, has not begun, earns
    no credits and has no average. *)
Theorem modul_ohne_pruefungsleistungen (m : Modul.baum)
    (Hm : Modul.pruefungsleistungen m = []) :
  Modul.ist_bestanden m = false
  ∧ Modul.get_status m = NICHT_BEGONNEN
  ∧ Modul.erreichte_ects m = 0
  ∧ Modul.get_durchschnittsnote m = Ok None.
Proof.
  unfold Modul.erreichte_ects, Modul.ist_bestanden, Modul.get_status,
    Modul.get_durchschnittsnote.
  rewrite Hm. repeat split.
Qed.

Lemma modul_ohne_pruefungsleistungen_witness :
  let m : Modul.baum := Modul.init "E-Health" 5 true in
  Modul.ist_bestanden m = false
  ∧ Modul.get_status m = NICHT_BEGONNEN
  ∧ Modul.erreichte_ects m = 0
  ∧ Modul.get_durchschnittsnote m = Ok None.
Proof.
  intros m. apply (modul_ohne_pruefungsleistungen m). reflexivity.
Defined.

(** ** Semesters *)

(** C4, as the code has it.  The constructor keeps the number and the two
    dates it is given and starts with no module; it compares no dates, and
    creating the object succeeds in every store. *)
Theorem semester_init_speichert (nummer : Z) (startdatum enddatum : date)
    (st : Store.t) :
  let s : Semester.t Store.loc := Semester.init nummer startdatum enddatum in
  Semester.nummer s = nummer
  ∧ Semester.startdatum s = startdatum
  ∧ Semester.enddatum s = enddatum
  ∧ Semester.module s = []
  ∧ ∃ st', Store.alloc (Store.OSemester s) st = Ok (Store.next st, st')
           ∧ Store.objs st' !! Store.next st = Some (Store.OSemester s).
Proof.
  repeat split. eexists. split; [reflexivity |].
  simpl. apply lookup_insert_eq.
Qed.

(** C4 fails on the code: a semester that ends before it starts is created
    and stored like any other. *)
Lemma semester_ende_vor_start :
  ∃ st' s,
    Store.alloc
      (Store.OSemester (Semester.init 1 (Date 2025 6 30) (Date 2025 1 1)))
      Store.empty
    = Ok (0%nat, st')
    ∧ Store.objs st' !! 0%nat = Some (Store.OSemester s)
    ∧ date_ltb (Semester.enddatum s) (Semester.startdatum s) = true.
Proof.
  do 2 eexists. split; [reflexivity |]. split; [apply lookup_insert_eq |].
  reflexivity.
Qed.

(** ** The registry *)

(** C3, as the code has it.  [create_user] never fails on a controller: it
    creates a user without programmes, stores it under [user_id] in place
    of whatever was stored there, keeps the other entries and the active
    user, and returns the new user. *)
Theorem create_user_ersetzt (st : Store.t) (self : Store.loc)
    (c : DashboardController.t Store.loc) (user_id name email rolle : string)
    (jetzt : Z)
    (Hself : Store.objs st !! self = Some (Store.OController c))
    (Hfresh : (self < Store.next st)%nat) :
  ∃ st',
    Methoden.create_user self user_id name email rolle jetzt st
    = Ok (Store.next st, st')
    ∧ Store.objs st' !! Store.next st
      = Some (Store.OUser (User.init user_id name email rolle jetzt))
    ∧ Store.objs st' !! self
      = Some (Store.OController
                (DashboardController.mk
                   (<[user_id := Store.next st]> (DashboardController.users c))
                   (DashboardController.current_user c))).
Proof.
  unfold Methoden.create_user, mbind, Store.M_bind, Store.alloc,
    Store.get_controller, Store.put, mret, Store.M_ret. simpl.
  rewrite lookup_insert_ne by lia. rewrite Hself.
  eexists. split; [reflexivity |]. simpl. split.
  - rewrite lookup_insert_ne by lia. apply lookup_insert_eq.
  - apply lookup_insert_eq.
Qed.

(** C3 fails on the code: once the sample script has registered
    ["IU14125513"], registering the same identifier again raises nothing
    and replaces the entry. *)
Lemma create_user_doppelt :
  ∃ controller st c u st',
    Beispiel.lauf = Ok (controller, st)
    ∧ Store.objs st !! controller = Some (Store.OController c)
    ∧ DashboardController.users c !! "IU14125513" = Some u
    ∧ Methoden.create_user controller "IU14125513" "Christine Münzberg"
        "christine_muenzberg@web.de" "Student" 0 st
      = Ok (Store.next st, st')
    ∧ u ≠ Store.next st.
Proof.
  unfold Beispiel.lauf.
  destruct (Beispiel.create_iu_medizinische_informatik_data 0 Store.empty)
    as [[controller st] | e] eqn:Hrun; [| vm_compute in Hrun; discriminate].
  vm_compute in Hrun. injection Hrun as <- <-.
  eexists _, _, _, _, _.
  split; [reflexivity |].
  split; [vm_compute; reflexivity |].
  split; [vm_compute; reflexivity |].
  split; [vm_compute; reflexivity |].
  vm_compute. lia.
Qed.

Lemma create_user_ersetzt_witness :
  let alt : User.t Store.loc := User.init "IU14125513" "A" "a@web.de" "Student" 0 in
  let c : DashboardController.t Store.loc :=
    DashboardController.mk {[ "IU14125513" := 1%nat ]} (Some 1%nat) in
  let st := Store.mk {[ 0%nat := Store.OController c;
                        1%nat := Store.OUser alt ]} 2%nat in
  ∃ st',
    Methoden.create_user 0%nat "IU14125513" "B" "b@web.de" "Student" 7 st
    = Ok (2%nat, st')
    ∧ Store.objs st' !! 2%nat
      = Some (Store.OUser (User.init "IU14125513" "B" "b@web.de" "Student" 7))
    ∧ Store.objs st' !! 0%nat
      = Some (Store.OController
                (DashboardController.mk
                   (<[ "IU14125513" := 2%nat ]> {[ "IU14125513" := 1%nat ]})
                   (Some 1%nat))).
Proof.
  intros alt c st.
  apply (create_user_ersetzt st 0%nat c "IU14125513" "B" "b@web.de" "Student" 7).
  - reflexivity.
  - simpl. lia.
Defined.

(** ** The dashboard data *)

(** C10.  With an active user who has no programme the result is the dict
    that holds the one key ["error"]; the result is [None] exactly when no
    user is active. *)
Theorem get_dashboard_data_ohne_studiengang (self : DashboardController.baum)
    (u : User.baum)
    (Hu : DashboardController.current_user self = Some u)
    (Hs : User.studiengaenge u = []) :
  DashboardController.get_dashboard_data self
  = Ok (Some (VDict [ ("error", VStr "Kein Studiengang gefunden") ]))
  ∧ ∀ c : DashboardController.baum,
      DashboardController.get_dashboard_data c = Ok None
      ↔ DashboardController.current_user c = None.
Proof.
  split.
  - unfold DashboardController.get_dashboard_data, User.zeige_dashboard,
      User.get_aktueller_studiengang.
    rewrite Hu, Hs. reflexivity.
  - intros c. unfold DashboardController.get_dashboard_data.
    destruct (DashboardController.current_user c) as [cu |]; [| tauto].
    split; [| discriminate].
    destruct (User.zeige_dashboard cu); simpl; discriminate.
Qed.

Lemma get_dashboard_data_ohne_studiengang_witness :
  let u : User.baum :=
    User.init "IU14125513" "Christine Münzberg" "christine_muenzberg@web.de"
      "Student" 0 in
  DashboardController.get_dashboard_data
    (DashboardController.mk {[ "IU14125513" := u ]} (Some u))
  = Ok (Some (VDict [ ("error", VStr "Kein Studiengang gefunden") ])).
Proof.
  intros u.
  refine (proj1 (get_dashboard_data_ohne_studiengang _ u _ _)); reflexivity.
Defined.

(** C8.  With an active user whose last programme is [sg], the dashboard
    data are computed whenever [sg] serialises, and their ["fortschritt"]
    entry then holds the values the four methods return on [sg]; an
    exception of the serialisation is the exception of the call. *)
Theorem get_dashboard_data_fortschritt (self : DashboardController.baum)
    (u : User.baum) (sg : Studiengang.baum)
    (Hu : DashboardController.current_user self = Some u)
    (Hsg : User.get_aktueller_studiengang u = Some sg) :
  match Studiengang.to_dict sg with
  | Raise e => DashboardController.get_dashboard_data self = Raise e
  | Ok studiengang_dict =>
      ∃ (gesamtnote : option float) (erreicht : bool) (d : pyval),
        DashboardController.get_dashboard_data self = Ok (Some d)
        ∧ Studiengang.berechne_gesamtnote sg = Ok gesamtnote
        ∧ Studiengang.ziel_erreicht sg = Ok erreicht
        ∧ dict_get "studiengang" d = Some studiengang_dict
        ∧ dict_get "fortschritt" d
          = Some (VDict
                    [ ("gesamt_ects", VInt (Studiengang.berechne_gesamt_ects sg));
                      ("gesamtnote", VOptFloat gesamtnote);
                      ("im_zeitplan", VBool (Studiengang.ist_im_zeitplan sg));
                      ("ziel_erreicht", VBool erreicht) ])
  end.
Proof.
  unfold DashboardController.get_dashboard_data, User.zeige_dashboard.
  rewrite Hu, Hsg.
  destruct (Studiengang.to_dict sg) as [sgd | e] eqn:Hd; [| reflexivity].
  unfold Studiengang.to_dict in Hd.
  destruct (Studiengang.berechne_gesamtnote sg) as [g | e]; [| discriminate].
  destruct (Studiengang.ziel_erreicht sg) as [z | e]; [| discriminate].
  exists g, z. eexists. repeat split.
Qed.

(** ** The weighted average *)

Lemma fold_left_add_shift (l : list Z) (a : Z) :
  fold_left Z.add l a = a + sum_int l.
Proof.
  unfold sum_int. revert a. induction l as [| x l IH]; intros a; simpl.
  - lia.
  - rewrite (IH (a + x)), (IH (0 + x)). lia.
Qed.

Lemma sum_int_cons (x : Z) (l : list Z) : sum_int (x :: l) = x + sum_int l.
Proof.
  unfold sum_int at 1. simpl. rewrite fold_left_add_shift. lia.
Qed.

(** The loop computes the two sums of the contributions. *)
Lemma foldlR_gewichte (ms : list Modul.baum) (summe : float) (e : Z) :
  foldlR Modul.gewichte (summe, e) ms
  = (bs ← mapR Spezifikation.beitrag ms;
     Ok (fold_left add (map fst (omap id bs)) summe,
         e + sum_int (map snd (omap id bs)))).
Proof.
  revert summe e. induction ms as [| m ms IH]; intros summe e.
  - simpl. unfold mbind, result_bind. f_equal. f_equal. unfold sum_int. simpl. lia.
  - cbn [foldlR mapR].
    set (rest := mapR Spezifikation.beitrag ms) in *.
    unfold Modul.gewichte, Spezifikation.beitrag.
    destruct (Modul.ist_bestanden m).
    + destruct (Modul.get_durchschnittsnote m) as [[n |] | ex]; simpl.
      * destruct (mul_int n (Modul.ects m)) as [p | ex]; simpl; [| reflexivity].
        rewrite IH. destruct rest; simpl; [| reflexivity].
        rewrite sum_int_cons. f_equal. f_equal. symmetry. apply Z.add_assoc.
      * rewrite IH. destruct rest; reflexivity.
      * reflexivity.
    + simpl. rewrite IH. destruct rest; reflexivity.
Qed.

Lemma beitrag_ects (m : Modul.baum) (z : float * Z) :
  Spezifikation.beitrag m = Ok (Some z) → snd z = Modul.ects m.
Proof.
  unfold Spezifikation.beitrag.
  destruct (Modul.ist_bestanden m); [| discriminate].
  destruct (Modul.get_durchschnittsnote m) as [[n |] | ex]; simpl;
    try discriminate.
  destruct (mul_int n (Modul.ects m)); simpl; [| discriminate].
  intros [= <-]. reflexivity.
Qed.

Lemma beitraege_positiv (ms : list Modul.baum) (bs : list (option (float * Z))) :
  Forall (fun m => 0 < Modul.ects m) ms →
  mapR Spezifikation.beitrag ms = Ok bs →
  Forall (fun z => 0 < snd z) (omap id bs).
Proof.
  intros Hpos. revert bs. induction Hpos as [| m ms Hm Hpos IH]; intros bs.
  - simpl. intros [= <-]. constructor.
  - simpl. destruct (Spezifikation.beitrag m) as [b | ex] eqn:Hb; simpl;
      [| discriminate].
    destruct (mapR Spezifikation.beitrag ms) as [bs' | ex]; simpl;
      [| discriminate].
    intros [= <-]. destruct b as [z |]; simpl.
    + constructor; [| apply IH; reflexivity].
      rewrite (beitrag_ects m z Hb). exact Hm.
    + apply IH. reflexivity.
Qed.

Lemma sum_int_positiv (l : list Z) :
  Forall (fun z => 0 < z) l → l ≠ [] → 0 < sum_int l.
Proof.
  induction 1 as [| x l Hx Hl IH]; [congruence |]. intros _.
  rewrite sum_int_cons. destruct l as [| y l].
  - unfold sum_int. simpl. lia.
  - assert (0 < sum_int (y :: l)) by (apply IH; discriminate). lia.
Qed.

(** C5, as the code has it.  With positive credits, the average of a
    semester is the sum of average × credits over its passed modules that
    have an average, divided by the sum of their credits and rounded to one
    decimal, and null when there is no such module.  For two passed
    modules of 5 credits with averages 2.0 and 3.3 it is 2.6: the quotient
    26.5 / 10 is the double just below 2.65. *)
Theorem durchschnittsnote_gewichtet (s : Semester.baum)
    (Hects : Forall (fun m => 0 < Modul.ects m) (Semester.module s)) :
  Semester.durchschnittsnote s
  = Spezifikation.gewichteter_durchschnitt (Semester.module s)
  ∧ Semester.durchschnittsnote Beispiel.semester_zwei_module
    = Ok (Some (tenths 26)).
Proof.
  split; [| vm_compute; reflexivity].
  unfold Semester.durchschnittsnote, Spezifikation.gewichteter_durchschnitt.
  rewrite foldlR_gewichte.
  destruct (mapR Spezifikation.beitrag (Semester.module s)) as [bs | ex] eqn:Hbs;
    simpl; [| reflexivity].
  pose proof (beitraege_positiv _ _ Hects Hbs) as Hpos.
  destruct (omap id bs) as [| z zs] eqn:Hzs.
  - reflexivity.
  - assert (Hsum : 0 < sum_int (map snd (z :: zs))).
    { apply sum_int_positiv; [| discriminate].
      apply Forall_map. exact Hpos. }
    unfold Modul.gewichtetes_mittel.
    replace (0 + sum_int (map snd (z :: zs))) with (sum_int (map snd (z :: zs)))
      by lia.
    apply Z.ltb_lt in Hsum. rewrite Hsum. reflexivity.
Qed.

Lemma durchschnittsnote_gewichtet_witness :
  Forall (fun m => 0 < Modul.ects m)
    (Semester.module Beispiel.semester_zwei_module)
  ∧ Semester.durchschnittsnote Beispiel.semester_zwei_module
    = Spezifikation.gewichteter_durchschnitt
        (Semester.module Beispiel.semester_zwei_module).
Proof.
  assert (H : Forall (fun m => 0 < Modul.ects m)
                (Semester.module Beispiel.semester_zwei_module)).
  { repeat constructor. }
  split; [exact H |].
  exact (proj1 (durchschnittsnote_gewichtet Beispiel.semester_zwei_module H)).
Defined.

(** C5 fails on the code in its example: the two modules are passed, have
    5 credits each and the averages 2.0 and 3.3, and the average of the
    semester is not 2.7. *)
Lemma durchschnittsnote_nicht_2_7 :
  let ms := Semester.module Beispiel.semester_zwei_module in
  map Modul.ist_bestanden ms = [true; true]
  ∧ map Modul.ects ms = [5; 5]
  ∧ map Modul.get_durchschnittsnote ms
    = [Ok (Some (tenths 20)); Ok (Some (tenths 33))]
  ∧ Semester.durchschnittsnote Beispiel.semester_zwei_module
    ≠ Ok (Some (tenths 27)).
Proof.
  repeat split; try (vm_compute; reflexivity).
  vm_compute. discriminate.
Qed.

(** ** The sample data *)

(** C1.  The script builds one programme with target grade 2.0 and target
    duration 8, of one semester of five modules of 5 credits; four hold one
    graded assessment (2.0, 3.3, 2.0, 2.0) and the fifth an ungraded one.
    On it, 20 credits are earned, the overall grade is 2.3, the programme
    is on schedule and the goal is not met. *)
Theorem beispiel_kennzahlen (jetzt : Z) :
  ∃ sg : Studiengang.baum,
    Beispiel.studiengang jetzt = Some sg
    ∧ Studiengang.ziel_note sg = tenths 20
    ∧ Studiengang.ziel_dauer_semester sg = 8
    ∧ map (fun s => map (fun m => (Modul.ects m,
                                   map Pruefungsleistung.note
                                       (Modul.pruefungsleistungen m)))
                        (Semester.module s))
          (Studiengang.semester sg)
      = [[(5, [Some (tenths 20)]); (5, [Some (tenths 33)]);
          (5, [Some (tenths 20)]); (5, [Some (tenths 20)]); (5, [None])]]
    ∧ Studiengang.berechne_gesamt_ects sg = 20
    ∧ Studiengang.berechne_gesamtnote sg = Ok (Some (tenths 23))
    ∧ Studiengang.ist_im_zeitplan sg = true
    ∧ Studiengang.ziel_erreicht sg = Ok false.
Proof.
  eexists. split; [vm_compute; reflexivity |].
  repeat split; vm_compute; reflexivity.
Qed.

(** The dashboard data of the sample run, read through the store. *)
Example beispiel_dashboard :
  ∃ controller st d,
    Beispiel.lauf = Ok (controller, st)
    ∧ Methoden.get_dashboard_data st controller = Some (Ok (Some d))
    ∧ dict_get "fortschritt" d
      = Some (VDict [ ("gesamt_ects", VInt 20);
                      ("gesamtnote", VFloat (tenths 23));
                      ("im_zeitplan", VBool true);
                      ("ziel_erreicht", VBool false) ]).
Proof.
  unfold Beispiel.lauf.
  destruct (Beispiel.create_iu_medizinische_informatik_data 0 Store.empty)
    as [[controller st] | e] eqn:Hrun; [| vm_compute in Hrun; discriminate].
  vm_compute in Hrun. injection Hrun as <- <-.
  eexists _, _, _. split; [reflexivity |].
  split; vm_compute; reflexivity.
Qed.

Lemma get_dashboard_data_fortschritt_witness :
  ∃ (gesamtnote : option float) (erreicht : bool) (d : pyval),
    DashboardController.get_dashboard_data
      (DashboardController.mk ∅ (Some Beispiel.user_zwei_module))
    = Ok (Some d)
    ∧ Studiengang.berechne_gesamtnote
        (Studiengang.mk "Medizinische Informatik" "Bachelor of Science"
           BACHELOR (Date 2025 1 1) (tenths 20) 8
           [Beispiel.semester_zwei_module])
      = Ok gesamtnote
    ∧ gesamtnote = Some (tenths 26)
    ∧ erreicht = false
    ∧ dict_get "fortschritt" d
      = Some (VDict
                [ ("gesamt_ects", VInt 10);
                  ("gesamtnote", VOptFloat gesamtnote);
                  ("im_zeitplan", VBool true);
                  ("ziel_erreicht", VBool erreicht) ]).
Proof.
  pose proof (get_dashboard_data_fortschritt
                (DashboardController.mk ∅ (Some Beispiel.user_zwei_module))
                Beispiel.user_zwei_module _ eq_refl eq_refl) as H.
  vm_compute in H.
  destruct H as (g & z & d & Hd & Hg & Hz & _ & Hf).
  exists g, z, d.
  injection Hg as <-. injection Hz as <-. injection Hd as <-.
  repeat split; vm_compute; reflexivity.
Defined.

(** * Further properties of the model *)

(** ** The grading scale and the setter *)

(** X1.  [note_zu_text] answers ["Ungültige Note"] exactly for the values
    the setter refuses: those that equal no key of the scale. *)
Theorem note_zu_text_ungueltig (v : float) :
  IUBewertungsmassstab.note_zu_text v = "Ungültige Note"
  ↔ IUBewertungsmassstab.ist_gueltig v = false.
Proof.
  unfold IUBewertungsmassstab.note_zu_text, IUBewertungsmassstab.ist_gueltig,
    IUBewertungsmassstab.gueltige_noten.
  destruct (find (λ kv, eqb v (fst kv)) IUBewertungsmassstab.NOTEN_SKALA)
    as [kv |] eqn:Hfind.
  - apply find_some in Hfind as [Hin Heq].
    assert (Hex : existsb (eqb v) (map fst IUBewertungsmassstab.NOTEN_SKALA)
                  = true).
    { apply existsb_exists. exists (fst kv). split; [| exact Heq].
      apply in_map. exact Hin. }
    rewrite Hex. split; [| discriminate].
    intros Htext. exfalso. revert Htext. clear Heq Hex.
    unfold IUBewertungsmassstab.NOTEN_SKALA in Hin. simpl in Hin.
    repeat (destruct Hin as [<- | Hin]; [discriminate |]).
    destruct Hin.
  - split; [intros _ | reflexivity].
    apply not_true_is_false. intros Hex.
    apply existsb_exists in Hex as (k & Hin & Heq).
    apply in_map_iff in Hin as (kv & <- & Hin).
    rewrite (find_none _ _ Hfind kv Hin) in Heq. discriminate.
Qed.

Lemma gueltig_ist_gueltig (v : float) :
  In v IUBewertungsmassstab.gueltige_noten →
  IUBewertungsmassstab.ist_gueltig v = true
  ∧ IUBewertungsmassstab.ist_bestanden v = negb (eqb v (tenths 50)).
Proof.
  rewrite gueltige_noten_tenths. simpl. intros Hv.
  repeat (destruct Hv as [<- | Hv]; [split; vm_compute; reflexivity |]).
  destruct Hv.
Qed.

(** X2.  The setter accepts every grade of the scale: the grade is stored,
    the status becomes ["Nicht bestanden"] for 5.0 and ["Bestanden"] for
    the ten others, and the other attributes are kept. *)
Theorem set_note_gueltig (self : Pruefungsleistung.t) (v : float)
    (Hv : In v IUBewertungsmassstab.gueltige_noten) :
  Pruefungsleistung.set_note (Some v) self
  = (Ok (),
     Pruefungsleistung.mk (Pruefungsleistung.typ self) (Some v)
       (Pruefungsleistung.datum self) (Pruefungsleistung.versuch self)
       (if eqb v (tenths 50) then "Nicht bestanden" else "Bestanden")
       (Pruefungsleistung.unterklasse self)).
Proof.
  destruct (gueltig_ist_gueltig v Hv) as [Hg Hb].
  unfold Pruefungsleistung.set_note. rewrite Hg, Hb. simpl.
  destruct (eqb v (tenths 50)); reflexivity.
Qed.

Lemma set_note_gueltig_witness :
  Pruefungsleistung.set_note (Some (tenths 50)) (Portfolio 3 8 None None 1)
  = (Ok (),
     Pruefungsleistung.mk PORTFOLIO (Some (tenths 50)) None 1
       "Nicht bestanden" (Pruefungsleistung.PortfolioFelder 3 8)).
Proof.
  apply (set_note_gueltig (Portfolio 3 8 None None 1) (tenths 50)).
  vm_compute. do 10 right. left. reflexivity.
Defined.

(** X3.  Whatever the object was, after an assignment that raised nothing
    its status agrees with its grade: ["Bestanden"] exactly when
    [ist_bestanden()] holds and ["Offen"] exactly when no grade is stored;
    an assignment that raised left the object as it was. *)
Theorem set_note_status (self : Pruefungsleistung.t) (value : option float) :
  let r := fst (Pruefungsleistung.set_note value self) in
  let p := snd (Pruefungsleistung.set_note value self) in
  (r = Ok () →
     Pruefungsleistung.note p = value
     ∧ (Pruefungsleistung.status p = "Bestanden"
        ↔ Pruefungsleistung.ist_bestanden p = true)
     ∧ (Pruefungsleistung.status p = "Offen"
        ↔ Pruefungsleistung.wurde_abgelegt p = false))
  ∧ (r ≠ Ok () → p = self).
Proof.
  unfold Pruefungsleistung.set_note.
  destruct value as [v |]; simpl.
  - destruct (IUBewertungsmassstab.ist_gueltig v); simpl.
    + split; [intros _ | congruence].
      unfold Pruefungsleistung.ist_bestanden, Pruefungsleistung.wurde_abgelegt.
      simpl. destruct (IUBewertungsmassstab.ist_bestanden v);
        repeat split; intros; try discriminate; reflexivity.
    + split; [discriminate | reflexivity].
  - split; [intros _ | congruence].
    repeat split; intros; try discriminate; reflexivity.
Qed.

Lemma set_note_status_witness :
  let p := snd (Pruefungsleistung.set_note (Some (tenths 13))
                  (Klausur 120 None None 1)) in
  Pruefungsleistung.note p = Some (tenths 13)
  ∧ (Pruefungsleistung.status p = "Bestanden"
     ↔ Pruefungsleistung.ist_bestanden p = true)
  ∧ (Pruefungsleistung.status p = "Offen"
     ↔ Pruefungsleistung.wurde_abgelegt p = false).
Proof.
  apply (proj1 (set_note_status (Klausur 120 None None 1) (Some (tenths 13)))).
  reflexivity.
Defined.

(** ** Modules *)

Lemma pruefungsleistung_bestanden_abgelegt (p : Pruefungsleistung.t) :
  Pruefungsleistung.ist_bestanden p = true →
  Pruefungsleistung.wurde_abgelegt p = true.
Proof.
  unfold Pruefungsleistung.ist_bestanden, Pruefungsleistung.wurde_abgelegt.
  destruct (Pruefungsleistung.note p); [reflexivity | discriminate].
Qed.

Lemma wurde_abgelegt_false (p : Pruefungsleistung.t) :
  Pruefungsleistung.wurde_abgelegt p = false ↔ Pruefungsleistung.note p = None.
Proof.
  unfold Pruefungsleistung.wurde_abgelegt.
  destruct (Pruefungsleistung.note p); split; congruence.
Qed.

Lemma forallb_false_exists {A : Type} (f : A → bool) (l : list A) :
  forallb f l = false ↔ ∃ x, In x l ∧ f x = false.
Proof.
  induction l as [| a l IH]; simpl.
  - split; [discriminate | intros (x & [] & _)].
  - rewrite andb_false_iff, IH. split.
    + intros [Ha | (x & Hin & Hx)]; eauto.
    + intros (x & [<- | Hin] & Hx); eauto.
Qed.

Lemma modul_bestanden_alle_abgelegt (m : Modul.baum) :
  Modul.ist_bestanden m = true →
  forallb Pruefungsleistung.wurde_abgelegt (Modul.pruefungsleistungen m) = true.
Proof.
  unfold Modul.ist_bestanden.
  destruct (Modul.pruefungsleistungen m) as [| p l]; [discriminate |].
  intros H. apply forallb_forall. intros x Hx.
  apply pruefungsleistung_bestanden_abgelegt.
  exact (proj1 (forallb_forall _ _) H x Hx).
Qed.

(** X4.  What the four module states mean: not begun is the empty module;
    in progress is a module with an ungraded assessment; passed is exactly
    [ist_bestanden()]; failed is a non-empty module, graded throughout, that
    is not passed. *)
Theorem get_status_bedeutung (m : Modul.baum) :
  (Modul.get_status m = NICHT_BEGONNEN ↔ Modul.pruefungsleistungen m = [])
  ∧ (Modul.get_status m = IN_BEARBEITUNG
     ↔ ∃ p, In p (Modul.pruefungsleistungen m)
            ∧ Pruefungsleistung.note p = None)
  ∧ (Modul.get_status m = BESTANDEN ↔ Modul.ist_bestanden m = true)
  ∧ (Modul.get_status m = NICHT_BESTANDEN
     ↔ Modul.pruefungsleistungen m ≠ []
       ∧ (∀ p, In p (Modul.pruefungsleistungen m)
               → Pruefungsleistung.note p ≠ None)
       ∧ Modul.ist_bestanden m = false).
Proof.
  pose proof (modul_bestanden_alle_abgelegt m) as Hab.
  unfold Modul.get_status.
  destruct (Modul.pruefungsleistungen m) as [| p0 l] eqn:Hpls.
  - assert (Hb : Modul.ist_bestanden m = false).
    { unfold Modul.ist_bestanden. rewrite Hpls. reflexivity. }
    rewrite Hb. repeat split; try discriminate; try tauto.
    all: try (intros (p & [] & _)); try (intros (H & _); congruence).
  - destruct (forallb Pruefungsleistung.wurde_abgelegt (p0 :: l)) eqn:Hall.
    + assert (Hnone : ¬ ∃ p, In p (p0 :: l) ∧ Pruefungsleistung.note p = None).
      { intros (p & Hin & Hp). apply wurde_abgelegt_false in Hp.
        rewrite (proj1 (forallb_forall _ _) Hall p Hin) in Hp. discriminate. }
      assert (Hgraded : ∀ p, In p (p0 :: l) → Pruefungsleistung.note p ≠ None).
      { intros p Hin Hp. apply Hnone. eauto. }
      destruct (Modul.ist_bestanden m); repeat split;
        try discriminate; try tauto; try congruence.
      intros (_ & _ & H). discriminate.
    + assert (Hb : Modul.ist_bestanden m = false).
      { destruct (Modul.ist_bestanden m); [| reflexivity].
        specialize (Hab eq_refl). discriminate. }
      rewrite Hb.
      apply forallb_false_exists in Hall as (p & Hin & Hp).
      apply wurde_abgelegt_false in Hp.
      repeat split; try discriminate; try tauto; eauto.
      intros (_ & Hg & _). exfalso. exact (Hg p Hin Hp).
Qed.

(** X5.  A passed module has an average: [get_durchschnittsnote] never
    answers [None] for it, so the test [note is not None] in the loops of
    the semester and of the programme never fails for a passed module. *)
Theorem bestanden_hat_durchschnittsnote (m : Modul.baum)
    (Hm : Modul.ist_bestanden m = true) :
  Modul.get_durchschnittsnote m ≠ Ok None.
Proof.
  unfold Modul.ist_bestanden in Hm. unfold Modul.get_durchschnittsnote.
  destruct (Modul.pruefungsleistungen m) as [| p l]; [discriminate |].
  simpl in Hm. apply andb_true_iff in Hm as [Hp _].
  unfold Pruefungsleistung.ist_bestanden in Hp. simpl.
  destruct (Pruefungsleistung.note p) as [n |]; [| discriminate]. simpl.
  match goal with |- context [truediv_int ?a ?b] =>
    destruct (truediv_int a b) end; simpl; discriminate.
Qed.

Lemma bestanden_hat_durchschnittsnote_witness :
  Modul.get_durchschnittsnote (Beispiel.modul_mit_note "E-Health" 5 20)
  ≠ Ok None.
Proof.
  apply (bestanden_hat_durchschnittsnote
           (Beispiel.modul_mit_note "E-Health" 5 20)).
  vm_compute. reflexivity.
Defined.

(** X6.  After an assessment is added, the module is passed exactly when
    the new assessment is passed and the module was empty or passed. *)
Theorem add_pruefungsleistung_bestanden (m : Modul.baum)
    (p : Pruefungsleistung.t) :
  Modul.ist_bestanden (Modul.add_pruefungsleistung m p)
  = (match Modul.pruefungsleistungen m with
     | [] => true
     | _ => Modul.ist_bestanden m
     end) && Pruefungsleistung.ist_bestanden p.
Proof.
  unfold Modul.ist_bestanden, Modul.add_pruefungsleistung. simpl.
  destruct (Modul.pruefungsleistungen m) as [| p0 l]; simpl.
  - apply andb_true_r.
  - rewrite forallb_app. simpl. rewrite andb_true_r, andb_assoc. reflexivity.
Qed.

Lemma offen_nicht_bestanden (m : Modul.baum) (p : Pruefungsleistung.t) :
  In p (Modul.pruefungsleistungen m) → Pruefungsleistung.note p = None →
  Modul.ist_bestanden m = false ∧ Modul.get_status m = IN_BEARBEITUNG.
Proof.
  intros Hin Hp. unfold Modul.get_status, Modul.ist_bestanden.
  destruct (Modul.pruefungsleistungen m) as [| p0 l]; [destruct Hin |].
  assert (Hb : forallb Pruefungsleistung.ist_bestanden (p0 :: l) = false).
  { apply forallb_false_exists. exists p. split; [exact Hin |].
    unfold Pruefungsleistung.ist_bestanden. rewrite Hp. reflexivity. }
  assert (Ha : forallb Pruefungsleistung.wurde_abgelegt (p0 :: l) = false).
  { apply forallb_false_exists. exists p. split; [exact Hin |].
    apply wurde_abgelegt_false. exact Hp. }
  rewrite Ha. split; [exact Hb | reflexivity].
Qed.

(** X7.  Adding an ungraded assessment to any module puts it in progress:
    it is not passed and earns no credits until the grade is entered. *)
Theorem add_pruefungsleistung_offen (m : Modul.baum) (p : Pruefungsleistung.t)
    (Hp : Pruefungsleistung.note p = None) :
  let m' := Modul.add_pruefungsleistung m p in
  Modul.ist_bestanden m' = false
  ∧ Modul.erreichte_ects m' = 0
  ∧ Modul.get_status m' = IN_BEARBEITUNG.
Proof.
  intros m'.
  destruct (offen_nicht_bestanden m' p) as [Hb Hs]; [| exact Hp |].
  { unfold m', Modul.add_pruefungsleistung. simpl.
    apply in_or_app. right. left. reflexivity. }
  split; [exact Hb |]. split; [| exact Hs].
  unfold Modul.erreichte_ects. rewrite Hb. reflexivity.
Qed.

Lemma add_pruefungsleistung_offen_witness :
  let m' := Modul.add_pruefungsleistung
              (Beispiel.modul_mit_note "E-Health" 5 20)
              (Portfolio 3 8 None None 1) in
  Modul.ist_bestanden m' = false
  ∧ Modul.erreichte_ects m' = 0
  ∧ Modul.get_status m' = IN_BEARBEITUNG.
Proof.
  apply (add_pruefungsleistung_offen
           (Beispiel.modul_mit_note "E-Health" 5 20)
           (Portfolio 3 8 None None 1)).
  reflexivity.
Defined.

(** X8.  A module whose one assessment carries a grade of the scale has
    that grade as its average; it is passed, and earns its credits, for
    every grade but 5.0. *)
Theorem modul_eine_note (titel : string) (ects : Z) (pflicht : bool)
    (p : Pruefungsleistung.t) (g : float)
    (Hg : In g IUBewertungsmassstab.gueltige_noten)
    (Hp : Pruefungsleistung.note p = Some g) :
  let m : Modul.baum := Modul.mk titel ects pflicht [p] in
  Modul.get_durchschnittsnote m = Ok (Some g)
  ∧ Modul.ist_bestanden m = negb (eqb g (tenths 50))
  ∧ Modul.erreichte_ects m = (if eqb g (tenths 50) then 0 else ects)
  ∧ Modul.get_status m
    = (if eqb g (tenths 50) then NICHT_BESTANDEN else BESTANDEN).
Proof.
  intros m.
  unfold Modul.erreichte_ects, Modul.get_status, Modul.get_durchschnittsnote,
    Modul.ist_bestanden, Pruefungsleistung.ist_bestanden,
    Pruefungsleistung.wurde_abgelegt.
  simpl. rewrite Hp. simpl.
  rewrite gueltige_noten_tenths in Hg. simpl in Hg.
  repeat (destruct Hg as [<- | Hg]; [repeat split; vm_compute; reflexivity |]).
  destruct Hg.
Qed.

Lemma modul_eine_note_witness :
  Modul.get_durchschnittsnote (Beispiel.modul_mit_note "E-Health" 5 33)
  = Ok (Some (tenths 33)).
Proof.
  refine (proj1 (modul_eine_note "E-Health" 5 true
                   (Klausur 120 (Some (tenths 33)) None 1) (tenths 33) _ _)).
  - vm_compute. do 7 right. left. reflexivity.
  - reflexivity.
Defined.

(** ** Credits of semesters and programmes *)

Lemma sum_int_app (l1 l2 : list Z) :
  sum_int (l1 ++ l2) = sum_int l1 + sum_int l2.
Proof.
  induction l1 as [| x l1 IH]; simpl.
  - unfold sum_int at 2. simpl. lia.
  - rewrite !sum_int_cons, IH. lia.
Qed.

Lemma sum_int_nil : sum_int [] = 0.
Proof. reflexivity. Qed.

Lemma sum_erreichte_ects (ms : list Modul.baum) :
  sum_int (map Modul.erreichte_ects ms)
  = sum_int (map Modul.ects (filter (fun m => Modul.ist_bestanden m = true) ms)).
Proof.
  induction ms as [| m ms IH]; [reflexivity |].
  simpl map. rewrite sum_int_cons, IH, filter_cons.
  unfold Modul.erreichte_ects.
  destruct (Modul.ist_bestanden m); simpl.
  - destruct (decide (true = true)) as [_ | Hne]; [| congruence].
    simpl map. rewrite sum_int_cons. reflexivity.
  - destruct (decide (false = true)) as [Heq | _]; [discriminate |].
    lia.
Qed.

Lemma sum_erreichte_ects_schranke (ms : list Modul.baum) :
  Forall (fun m => 0 ≤ Modul.ects m) ms →
  0 ≤ sum_int (map Modul.erreichte_ects ms) ≤ sum_int (map Modul.ects ms).
Proof.
  induction 1 as [| m ms Hm _ IH]; simpl map.
  - rewrite sum_int_nil. lia.
  - rewrite !sum_int_cons. unfold Modul.erreichte_ects at 1 3.
    destruct (Modul.ist_bestanden m); lia.
Qed.

(** X9.  The credits earned in a semester are the credits of its passed
    modules; when no module has negative credits they lie between 0 and
    the nominal credits of the semester. *)
Theorem semester_erreichte_ects (s : Semester.baum) :
  Semester.erreichte_ects s
  = sum_int (map Modul.ects
               (filter (fun m => Modul.ist_bestanden m = true)
                  (Semester.module s)))
  ∧ (Forall (fun m => 0 ≤ Modul.ects m) (Semester.module s) →
     0 ≤ Semester.erreichte_ects s ≤ Semester.gesamt_ects_semester s).
Proof.
  unfold Semester.erreichte_ects, Semester.gesamt_ects_semester.
  split; [apply sum_erreichte_ects | apply sum_erreichte_ects_schranke].
Qed.

Lemma semester_erreichte_ects_witness :
  0 ≤ Semester.erreichte_ects Beispiel.semester_zwei_module
    ≤ Semester.gesamt_ects_semester Beispiel.semester_zwei_module.
Proof.
  apply (proj2 (semester_erreichte_ects Beispiel.semester_zwei_module)).
  repeat constructor; discriminate.
Defined.

(** All modules of a programme, semester after semester. *)
Lemma sum_semester_erreichte_ects (ss : list Semester.baum) :
  sum_int (map Semester.erreichte_ects ss)
  = sum_int (map Modul.erreichte_ects (concat (map Semester.module ss))).
Proof.
  induction ss as [| s ss IH]; [reflexivity |].
  simpl. rewrite sum_int_cons, map_app, sum_int_app, IH. reflexivity.
Qed.

Lemma sum_semester_gesamt_ects (ss : list Semester.baum) :
  sum_int (map Semester.gesamt_ects_semester ss)
  = sum_int (map Modul.ects (concat (map Semester.module ss))).
Proof.
  induction ss as [| s ss IH]; [reflexivity |].
  simpl. rewrite sum_int_cons, map_app, sum_int_app, IH. reflexivity.
Qed.

(** X10.  The credits earned in a programme are the credits of the passed
    modules of all its semesters; when no module has negative credits they
    lie between 0 and the sum of the nominal credits of the semesters. *)
Theorem berechne_gesamt_ects_module (sg : Studiengang.baum) :
  let alle := concat (map Semester.module (Studiengang.semester sg)) in
  Studiengang.berechne_gesamt_ects sg
  = sum_int (map Modul.ects (filter (fun m => Modul.ist_bestanden m = true) alle))
  ∧ (Forall (fun m => 0 ≤ Modul.ects m) alle →
     0 ≤ Studiengang.berechne_gesamt_ects sg
       ≤ sum_int (map Semester.gesamt_ects_semester (Studiengang.semester sg))).
Proof.
  intros alle. unfold Studiengang.berechne_gesamt_ects.
  rewrite sum_semester_erreichte_ects, sum_semester_gesamt_ects.
  split; [apply sum_erreichte_ects | apply sum_erreichte_ects_schranke].
Qed.

Lemma berechne_gesamt_ects_module_witness :
  ∃ sg, Beispiel.studiengang 0 = Some sg
        ∧ 0 ≤ Studiengang.berechne_gesamt_ects sg
            ≤ sum_int (map Semester.gesamt_ects_semester
                         (Studiengang.semester sg)).
Proof.
  destruct (Beispiel.studiengang 0) as [sg |] eqn:Hsg;
    [| vm_compute in Hsg; discriminate].
  exists sg. split; [reflexivity |].
  apply (proj2 (berechne_gesamt_ects_module sg)).
  vm_compute in Hsg. injection Hsg as <-.
  repeat constructor; discriminate.
Defined.

(** X11.  Adding a semester to a programme adds the credits earned in it,
    and the programme is then on schedule exactly when it had fewer
    semesters than its target duration. *)
Theorem add_semester_kennzahlen (sg : Studiengang.baum) (s : Semester.baum) :
  let sg' := Studiengang.add_semester sg s in
  Studiengang.berechne_gesamt_ects sg'
  = Studiengang.berechne_gesamt_ects sg + Semester.erreichte_ects s
  ∧ Studiengang.ist_im_zeitplan sg'
    = (Z.of_nat (length (Studiengang.semester sg))
       <? Studiengang.ziel_dauer_semester sg)
  ∧ (Studiengang.ist_im_zeitplan sg' = true
     → Studiengang.ist_im_zeitplan sg = true).
Proof.
  intros sg'.
  assert (Hz : Studiengang.ist_im_zeitplan sg'
               = (Z.of_nat (length (Studiengang.semester sg))
                  <? Studiengang.ziel_dauer_semester sg)).
  { unfold sg', Studiengang.ist_im_zeitplan, Studiengang.add_semester. simpl.
    rewrite length_app. simpl.
    destruct (Z.ltb_spec (Z.of_nat (length (Studiengang.semester sg)))
                (Studiengang.ziel_dauer_semester sg));
      [apply Z.leb_le | apply Z.leb_gt]; lia. }
  split; [| split; [exact Hz |]].
  - unfold sg', Studiengang.berechne_gesamt_ects, Studiengang.add_semester.
    simpl. rewrite map_app, sum_int_app. simpl.
    rewrite sum_int_cons, sum_int_nil. lia.
  - rewrite Hz. unfold Studiengang.ist_im_zeitplan.
    intros H. apply Z.ltb_lt in H. apply Z.leb_le. lia.
Qed.

Lemma add_semester_kennzahlen_witness :
  let sg : Studiengang.baum :=
    Studiengang.init "Medizinische Informatik" "Bachelor of Science" BACHELOR
      (Date 2025 1 1) (tenths 20) 8 in
  Studiengang.ist_im_zeitplan sg = true.
Proof.
  intros sg.
  apply (proj2 (proj2 (add_semester_kennzahlen sg
                         Beispiel.semester_zwei_module))).
  reflexivity.
Defined.

(** ** The overall grade *)

Lemma foldlR_app {A B : Type} (f : A → B → result A) (l1 l2 : list B) (a : A) :
  foldlR f a (l1 ++ l2) = (a' ← foldlR f a l1; foldlR f a' l2).
Proof.
  revert a. induction l1 as [| x l1 IH]; intros a; simpl; [reflexivity |].
  destruct (f a x) as [a' | e]; simpl; [apply IH | reflexivity].
Qed.

Lemma foldlR_semester (ss : list Semester.baum) (acc : float * Z) :
  foldlR (fun acc sem => foldlR Modul.gewichte acc (Semester.module sem)) acc ss
  = foldlR Modul.gewichte acc (concat (map Semester.module ss)).
Proof.
  revert acc. induction ss as [| s ss IH]; intros acc; simpl; [reflexivity |].
  rewrite foldlR_app.
  destruct (foldlR Modul.gewichte acc (Semester.module s)) as [acc' | e]; simpl;
    [apply IH | reflexivity].
Qed.

(** X12.  The overall grade of a programme is the average of the one
    semester that would hold the modules of all its semesters in order; a
    programme of a single semester has that semester's average. *)
Theorem berechne_gesamtnote_alle_module (sg : Studiengang.baum) (nummer : Z)
    (startdatum enddatum : date) :
  Studiengang.berechne_gesamtnote sg
  = Semester.durchschnittsnote
      (Semester.mk nummer startdatum enddatum
         (concat (map Semester.module (Studiengang.semester sg))))
  ∧ ∀ s, Studiengang.semester sg = [s] →
         Studiengang.berechne_gesamtnote sg = Semester.durchschnittsnote s.
Proof.
  unfold Studiengang.berechne_gesamtnote, Semester.durchschnittsnote.
  rewrite foldlR_semester. split; [reflexivity |].
  intros s ->. simpl. rewrite app_nil_r. reflexivity.
Qed.

Lemma berechne_gesamtnote_alle_module_witness :
  let sg : Studiengang.baum :=
    Studiengang.mk "Medizinische Informatik" "Bachelor of Science" BACHELOR
      (Date 2025 1 1) (tenths 20) 8 [Beispiel.semester_zwei_module] in
  Studiengang.berechne_gesamtnote sg
  = Semester.durchschnittsnote Beispiel.semester_zwei_module.
Proof.
  intros sg.
  apply (proj2 (berechne_gesamtnote_alle_module sg 1 (Date 2025 1 1)
                  (Date 2025 6 30))).
  reflexivity.
Defined.

Lemma foldlR_gewichte_nicht_bestanden (ms : list Modul.baum) (acc : float * Z) :
  Forall (fun m => Modul.ist_bestanden m = false) ms →
  foldlR Modul.gewichte acc ms = Ok acc.
Proof.
  destruct acc as [summe e].
  induction 1 as [| m ms Hm _ IH]; [reflexivity |].
  cbv beta in Hm. cbn [foldlR].
  assert (Hstep : Modul.gewichte (summe, e) m = Ok (summe, e)).
  { unfold Modul.gewichte. rewrite Hm. reflexivity. }
  rewrite Hstep. exact IH.
Qed.

(** X13.  While no module of a programme is passed, the programme has no
    overall grade and no credits, and its goal is not met, whatever the
    target grade and whatever grades the modules hold. *)
Theorem kein_modul_bestanden (sg : Studiengang.baum)
    (H : Forall (fun m => Modul.ist_bestanden m = false)
           (concat (map Semester.module (Studiengang.semester sg)))) :
  Studiengang.berechne_gesamtnote sg = Ok None
  ∧ Studiengang.berechne_gesamt_ects sg = 0
  ∧ Studiengang.ziel_erreicht sg = Ok false
  ∧ Forall (fun s => Semester.durchschnittsnote s = Ok None)
      (Studiengang.semester sg).
Proof.
  assert (Hnote : Studiengang.berechne_gesamtnote sg = Ok None).
  { unfold Studiengang.berechne_gesamtnote.
    rewrite foldlR_semester, (foldlR_gewichte_nicht_bestanden _ _ H).
    reflexivity. }
  split; [exact Hnote |]. split; [| split].
  - unfold Studiengang.berechne_gesamt_ects.
    rewrite sum_semester_erreichte_ects, sum_erreichte_ects.
    replace (filter (fun m => Modul.ist_bestanden m = true)
               (concat (map Semester.module (Studiengang.semester sg))))
      with (@nil Modul.baum); [reflexivity |].
    symmetry. induction H as [| m ms Hm _ IH]; [reflexivity |].
    cbv beta in Hm. rewrite filter_cons. destruct (decide (Modul.ist_bestanden m = true));
      [congruence | exact IH].
  - unfold Studiengang.ziel_erreicht. rewrite Hnote. reflexivity.
  - revert H. induction (Studiengang.semester sg) as [| s ss IH]; simpl;
      intros H; constructor.
    + apply Forall_app in H as [Hs _].
      unfold Semester.durchschnittsnote.
      rewrite (foldlR_gewichte_nicht_bestanden _ _ Hs). reflexivity.
    + apply IH. apply Forall_app in H as [_ Hss]. exact Hss.
Qed.

Lemma kein_modul_bestanden_witness :
  let offen : Modul.baum :=
    Modul.mk "Projekt" 5 true [Portfolio 4 6 None None 1] in
  let sg : Studiengang.baum :=
    Studiengang.mk "Medizinische Informatik" "Bachelor of Science" BACHELOR
      (Date 2025 1 1) (tenths 20) 8
      [Semester.mk 1 (Date 2025 1 1) (Date 2025 6 30) [offen]] in
  Studiengang.berechne_gesamtnote sg = Ok None
  ∧ Studiengang.berechne_gesamt_ects sg = 0
  ∧ Studiengang.ziel_erreicht sg = Ok false
  ∧ Forall (fun s => Semester.durchschnittsnote s = Ok None)
      (Studiengang.semester sg).
Proof.
  intros offen sg. apply (kein_modul_bestanden sg).
  repeat constructor.
Defined.

(** ** The registry in the store *)

Ltac schritt :=
  unfold mbind, Store.M_bind, mret, Store.M_ret, Store.alloc, Store.put,
    Store.get_controller, Store.get_user, Store.get_studiengang,
    Store.get_semester, Store.get_modul, Store.throw; simpl.

(** X14.  [login_user] with an identifier that is not registered answers
    [False] and changes nothing.  With a registered one it answers [True],
    makes the user stored under the identifier the active one and keeps the
    mapping; logging in again with the same identifier then changes
    nothing. *)
Theorem login_user_wirkung (st : Store.t) (self : Store.loc)
    (c : DashboardController.t Store.loc) (user_id : string)
    (Hself : Store.objs st !! self = Some (Store.OController c)) :
  match DashboardController.users c !! user_id with
  | None => Methoden.login_user self user_id st = Ok (false, st)
  | Some u =>
      ∃ st',
        Methoden.login_user self user_id st = Ok (true, st')
        ∧ Store.objs st' !! self
          = Some (Store.OController
                    (DashboardController.mk (DashboardController.users c)
                       (Some u)))
        ∧ (∀ l, l ≠ self → Store.objs st' !! l = Store.objs st !! l)
        ∧ Methoden.login_user self user_id st' = Ok (true, st')
  end.
Proof.
  destruct (DashboardController.users c !! user_id) as [u |] eqn:Hu.
  - eexists. split; [| split; [| split]].
    + unfold Methoden.login_user. schritt. rewrite Hself, Hu. reflexivity.
    + simpl. apply lookup_insert_eq.
    + intros l Hl. simpl. apply lookup_insert_ne. congruence.
    + unfold Methoden.login_user. schritt.
      rewrite lookup_insert_eq. simpl. rewrite Hu. simpl.
      rewrite insert_insert_eq. reflexivity.
  - unfold Methoden.login_user. schritt. rewrite Hself, Hu. reflexivity.
Qed.

Lemma login_user_wirkung_witness :
  let c : DashboardController.t Store.loc :=
    DashboardController.mk {[ "IU14125513" := 1%nat ]} None in
  let st := Store.mk {[ 0%nat := Store.OController c ]} 2%nat in
  Methoden.login_user 0%nat "IU0" st = Ok (false, st).
Proof.
  intros c st.
  exact (login_user_wirkung st 0%nat c "IU0" eq_refl).
Defined.

Lemma user_ohne_studiengang (st : Store.t) (l : Store.loc)
    (o : User.t Store.loc) :
  Store.objs st !! l = Some (Store.OUser o) → User.studiengaenge o = [] →
  Store.user st l
  = Some (User.mk (User.user_id o) (User.name o) (User.email o)
            (User.rolle o) [] (User.erstellt_am o)).
Proof.
  intros Hl Hs. unfold Store.user. rewrite Hl, Hs. reflexivity.
Qed.

(** X15.  Registering a user and logging in under the same identifier
    always succeeds, and the dashboard data of the new session are the
    dict with the single key ["error"], for the new user has no
    programme yet. *)
Theorem create_user_login_dashboard (st : Store.t) (self : Store.loc)
    (c : DashboardController.t Store.loc) (user_id name email rolle : string)
    (jetzt : Z)
    (Hself : Store.objs st !! self = Some (Store.OController c))
    (Hfresh : (self < Store.next st)%nat) :
  ∃ st1 st2,
    Methoden.create_user self user_id name email rolle jetzt st
    = Ok (Store.next st, st1)
    ∧ Methoden.login_user self user_id st1 = Ok (true, st2)
    ∧ Methoden.get_dashboard_data st2 self
      = Some (Ok (Some (VDict [ ("error", VStr "Kein Studiengang gefunden") ]))).
Proof.
  eexists _, _. split; [| split].
  - unfold Methoden.create_user. schritt.
    rewrite lookup_insert_ne by lia. rewrite Hself. reflexivity.
  - unfold Methoden.login_user. schritt.
    rewrite lookup_insert_eq. simpl. rewrite lookup_insert_eq. reflexivity.
  - unfold Methoden.get_dashboard_data, Store.controller. simpl.
    rewrite lookup_insert_eq. simpl.
    erewrite (user_ohne_studiengang _ (Store.next st)
                (User.init user_id name email rolle jetzt));
      [reflexivity | | reflexivity].
    simpl. rewrite lookup_insert_ne by lia. rewrite lookup_insert_ne by lia.
    apply lookup_insert_eq.
Qed.

Lemma create_user_login_dashboard_witness :
  let st := Store.mk {[ 0%nat := Store.OController DashboardController.init ]}
              1%nat in
  ∃ st1 st2,
    Methoden.create_user 0%nat "IU14125513" "Christine Münzberg"
      "christine_muenzberg@web.de" "Student" 0 st
    = Ok (1%nat, st1)
    ∧ Methoden.login_user 0%nat "IU14125513" st1 = Ok (true, st2)
    ∧ Methoden.get_dashboard_data st2 0%nat
      = Some (Ok (Some (VDict [ ("error", VStr "Kein Studiengang gefunden") ]))).
Proof.
  intros st.
  apply (create_user_login_dashboard st 0%nat DashboardController.init).
  - reflexivity.
  - simpl. lia.
Defined.



(** ** Shared objects: what a later change shows *)

Lemma mapM_ext_option {A B : Type} (f g : A → option B) (l : list A) :
  (∀ x, f x = g x) → mapM f l = mapM g l.
Proof.
  intros Hfg. induction l as [| x l IH]; simpl; [reflexivity |].
  rewrite Hfg, IH. reflexivity.
Qed.

Lemma mapM_snoc_option {A B : Type} (f : A → option B) (l : list A) (x : A)
    (k : list B) (y : B) :
  mapM f l = Some k → f x = Some y → mapM f (l ++ [x])%list = Some (k ++ [y])%list.
Proof.
  intros Hl Hx. apply mapM_Some. apply Forall2_app.
  - apply mapM_Some. exact Hl.
  - constructor; [exact Hx | constructor].
Qed.

(** An assignment to a module object changes no assessment. *)
Lemma pruefungsleistung_put_modul (st : Store.t) (m : Store.loc)
    (o o' : Modul.t Store.loc) (n : Store.loc) (l : Store.loc) :
  Store.objs st !! m = Some (Store.OModul o) →
  Store.pruefungsleistung
    (Store.mk (<[m := Store.OModul o']> (Store.objs st)) n) l
  = Store.pruefungsleistung st l.
Proof.
  intros Hm. unfold Store.pruefungsleistung. simpl.
  destruct (decide (l = m)) as [-> | Hne].
  - rewrite lookup_insert_eq, Hm. reflexivity.
  - rewrite lookup_insert_ne by congruence. reflexivity.
Qed.

Lemma modul_objekt (st : Store.t) (m : Store.loc) (t : Modul.baum) :
  Store.modul st m = Some t →
  ∃ o, Store.objs st !! m = Some (Store.OModul o)
       ∧ mapM (Store.pruefungsleistung st) (Modul.pruefungsleistungen o)
         = Some (Modul.pruefungsleistungen t)
       ∧ Modul.titel t = Modul.titel o ∧ Modul.ects t = Modul.ects o
       ∧ Modul.pflicht t = Modul.pflicht o.
Proof.
  unfold Store.modul.
  destruct (Store.objs st !! m) as [[| o | | | |] |]; try discriminate.
  destruct (mapM (Store.pruefungsleistung st) (Modul.pruefungsleistungen o))
    as [pls |] eqn:Hpls; simpl; [| discriminate].
  intros [= <-]. exists o. simpl. auto.
Qed.

(** X17.  [add_pruefungsleistung] on a module in the store appends, in the
    tree of the module, the assessment as it is in the store, and touches
    no other object. *)
Theorem add_pruefungsleistung_sicht (st : Store.t) (m pl : Store.loc)
    (t : Modul.baum) (p : Pruefungsleistung.t)
    (Hm : Store.modul st m = Some t)
    (Hp : Store.pruefungsleistung st pl = Some p) :
  ∃ st',
    Methoden.Modul_add_pruefungsleistung m pl st = Ok ((), st')
    ∧ Store.modul st' m = Some (Modul.add_pruefungsleistung t p)
    ∧ Store.next st' = Store.next st
    ∧ ∀ l, l ≠ m → Store.objs st' !! l = Store.objs st !! l.
Proof.
  destruct (modul_objekt st m t Hm) as (o & Ho & Hpls & Ht & He & Hf).
  eexists. split; [| split; [| split]].
  - unfold Methoden.Modul_add_pruefungsleistung. schritt. rewrite Ho.
    reflexivity.
  - unfold Store.modul. simpl. rewrite lookup_insert_eq. simpl.
    rewrite (mapM_ext_option _ (Store.pruefungsleistung st));
      [| intros l; apply (pruefungsleistung_put_modul st m o); exact Ho].
    rewrite (mapM_snoc_option _ _ _ _ _ Hpls Hp). simpl.
    unfold Modul.add_pruefungsleistung. rewrite Ht, He, Hf. reflexivity.
  - reflexivity.
  - intros l Hl. simpl. apply lookup_insert_ne. congruence.
Qed.

Lemma add_pruefungsleistung_sicht_witness :
  let st := Store.mk
              {[ 0%nat := Store.OModul (Modul.init "E-Health" 5 true);
                 1%nat := Store.OPruefungsleistung
                            (Klausur 90 (Some (tenths 20)) None 1) ]}
              2%nat in
  ∃ st',
    Methoden.Modul_add_pruefungsleistung 0%nat 1%nat st = Ok ((), st')
    ∧ Store.modul st' 0%nat
      = Some (Modul.mk "E-Health" 5 true
                [Klausur 90 (Some (tenths 20)) None 1]).
Proof.
  intros st.
  destruct (add_pruefungsleistung_sicht st 0%nat 1%nat
              (Modul.init "E-Health" 5 true)
              (Klausur 90 (Some (tenths 20)) None 1) eq_refl eq_refl)
    as (st' & Hrun & Hview & _).
  exists st'. split; [exact Hrun | exact Hview].
Defined.

(** The tree of every other module is as before. *)
Lemma modul_put_modul (st : Store.t) (m : Store.loc)
    (o o' : Modul.t Store.loc) (n : Store.loc) (l : Store.loc) :
  Store.objs st !! m = Some (Store.OModul o) → l ≠ m →
  Store.modul (Store.mk (<[m := Store.OModul o']> (Store.objs st)) n) l
  = Store.modul st l.
Proof.
  intros Hm Hne. unfold Store.modul. simpl.
  rewrite lookup_insert_ne by congruence.
  destruct (Store.objs st !! l) as [[| ol | | | |] |]; try reflexivity.
  rewrite (mapM_ext_option _ (Store.pruefungsleistung st));
    [reflexivity |].
  intros x. apply (pruefungsleistung_put_modul st m o). exact Hm.
Qed.

(** X18.  An assessment added to a module after the module was attached
    shows in the semester: the tree of a semester that holds the module has
    the extended module at each of its places and the other modules as
    before. *)
Theorem add_pruefungsleistung_im_semester (st : Store.t) (s m pl : Store.loc)
    (os : Semester.t Store.loc) (t : Modul.baum) (p : Pruefungsleistung.t)
    (Hs : Store.objs st !! s = Some (Store.OSemester os))
    (Hm : Store.modul st m = Some t)
    (Hp : Store.pruefungsleistung st pl = Some p) :
  ∃ st',
    Methoden.Modul_add_pruefungsleistung m pl st = Ok ((), st')
    ∧ Store.semester st' s
      = (ms ← mapM (fun l => if decide (l = m)
                             then Some (Modul.add_pruefungsleistung t p)
                             else Store.modul st l)
                   (Semester.module os);
         Some (Semester.mk (Semester.nummer os) (Semester.startdatum os)
                 (Semester.enddatum os) ms)).
Proof.
  destruct (modul_objekt st m t Hm) as (o & Ho & Hpls & Ht & He & Hf).
  assert (Hsm : s ≠ m) by congruence.
  eexists. split.
  - unfold Methoden.Modul_add_pruefungsleistung. schritt. rewrite Ho.
    reflexivity.
  - unfold Store.semester. simpl.
    rewrite lookup_insert_ne by congruence. rewrite Hs.
    f_equal. apply mapM_ext_option. intros l.
    destruct (decide (l = m)) as [-> | Hne].
    + unfold Store.modul. simpl. rewrite lookup_insert_eq. simpl.
      rewrite (mapM_ext_option _ (Store.pruefungsleistung st));
        [| intros x; apply (pruefungsleistung_put_modul st m o); exact Ho].
      rewrite (mapM_snoc_option _ _ _ _ _ Hpls Hp). simpl.
      unfold Modul.add_pruefungsleistung. rewrite Ht, He, Hf. reflexivity.
    + apply (modul_put_modul st m o); assumption.
Qed.

Lemma add_pruefungsleistung_im_semester_witness :
  let st := Store.mk
              {[ 0%nat := Store.OSemester
                            (Semester.add_modul
                               (Semester.init 1 (Date 2025 1 1)
                                  (Date 2025 6 30)) 1%nat);
                 1%nat := Store.OModul (Modul.init "E-Health" 5 true);
                 2%nat := Store.OPruefungsleistung
                            (Klausur 90 (Some (tenths 20)) None 1) ]}
              3%nat in
  ∃ st',
    Methoden.Modul_add_pruefungsleistung 1%nat 2%nat st = Ok ((), st')
    ∧ Store.semester st' 0%nat
      = Some (Semester.mk 1 (Date 2025 1 1) (Date 2025 6 30)
                [Modul.mk "E-Health" 5 true
                   [Klausur 90 (Some (tenths 20)) None 1]]).
Proof.
  intros st.
  exact (add_pruefungsleistung_im_semester st 0%nat 1%nat 2%nat _
           (Modul.init "E-Health" 5 true)
           (Klausur 90 (Some (tenths 20)) None 1) eq_refl eq_refl eq_refl).
Defined.

(** An assignment to a semester object changes the tree of no module. *)
Lemma modul_put_semester (st : Store.t) (s : Store.loc)
    (o o' : Semester.t Store.loc) (n : Store.loc) (l : Store.loc) :
  Store.objs st !! s = Some (Store.OSemester o) →
  Store.modul (Store.mk (<[s := Store.OSemester o']> (Store.objs st)) n) l
  = Store.modul st l.
Proof.
  intros Hs.
  assert (Hpl : ∀ x,
    Store.pruefungsleistung
      (Store.mk (<[s := Store.OSemester o']> (Store.objs st)) n) x
    = Store.pruefungsleistung st x).
  { intros x. unfold Store.pruefungsleistung. simpl.
    destruct (decide (x = s)) as [-> | Hne].
    - rewrite lookup_insert_eq, Hs. reflexivity.
    - rewrite lookup_insert_ne by congruence. reflexivity. }
  unfold Store.modul. simpl.
  destruct (decide (l = s)) as [-> | Hne].
  - rewrite lookup_insert_eq, Hs. reflexivity.
  - rewrite lookup_insert_ne by congruence.
    destruct (Store.objs st !! l) as [[| ol | | | |] |]; try reflexivity.
    rewrite (mapM_ext_option _ (Store.pruefungsleistung st) _ Hpl).
    reflexivity.
Qed.

(** X19.  [add_modul] on a semester in the store appends, in the tree of
    the semester, the module as it is in the store at that time; the
    modules attached before keep their places. *)
Theorem add_modul_sicht (st : Store.t) (s m : Store.loc)
    (ts : Semester.baum) (tm : Modul.baum)
    (Hs : Store.semester st s = Some ts)
    (Hm : Store.modul st m = Some tm) :
  ∃ st',
    Methoden.Semester_add_modul s m st = Ok ((), st')
    ∧ Store.semester st' s = Some (Semester.add_modul ts tm)
    ∧ Store.next st' = Store.next st
    ∧ ∀ l, l ≠ s → Store.objs st' !! l = Store.objs st !! l.
Proof.
  unfold Store.semester in Hs.
  destruct (Store.objs st !! s) as [[| | os | | |] |] eqn:Hos;
    try discriminate.
  destruct (mapM (Store.modul st) (Semester.module os)) as [ms |] eqn:Hms;
    simpl in Hs; [| discriminate].
  injection Hs as <-.
  eexists. split; [| split; [| split]].
  - unfold Methoden.Semester_add_modul. schritt. rewrite Hos. reflexivity.
  - unfold Store.semester. simpl. rewrite lookup_insert_eq. simpl.
    rewrite (mapM_ext_option _ (Store.modul st));
      [| intros l; apply (modul_put_semester st s os); exact Hos].
    rewrite (mapM_snoc_option _ _ _ _ _ Hms Hm). reflexivity.
  - reflexivity.
  - intros l Hl. simpl. apply lookup_insert_ne. congruence.
Qed.

Lemma add_modul_sicht_witness :
  let st := Store.mk
              {[ 0%nat := Store.OSemester
                            (Semester.init 1 (Date 2025 1 1) (Date 2025 6 30));
                 1%nat := Store.OModul (Modul.init "E-Health" 5 true) ]}
              2%nat in
  ∃ st',
    Methoden.Semester_add_modul 0%nat 1%nat st = Ok ((), st')
    ∧ Store.semester st' 0%nat
      = Some (Semester.mk 1 (Date 2025 1 1) (Date 2025 6 30)
                [Modul.mk "E-Health" 5 true []]).
Proof.
  intros st.
  destruct (add_modul_sicht st 0%nat 1%nat
              (Semester.init 1 (Date 2025 1 1) (Date 2025 6 30))
              (Modul.init "E-Health" 5 true) eq_refl eq_refl)
    as (st' & Hrun & Hview & _).
  exists st'. split; [exact Hrun | exact Hview].
Defined.

(** ** The factory *)

(** X20.  When [create_pruefungsleistung] returns, the new object is of the
    requested kind, holds the grade, date and attempt it was given
    (attempt 1 by default) with the status ["Offen"], and every object
    that existed is unchanged; the only exception it raises is the
    [TypeError] of a keyword the class does not have. *)
Theorem create_pruefungsleistung_typ (st : Store.t) (self : Store.loc)
    (typ : PruefungsleistungsTyp) (kw : Methoden.kwargs) :
  match Methoden.create_pruefungsleistung self typ kw st with
  | Ok (l, st') =>
      l = Store.next st
      ∧ (∃ p, Store.objs st' !! l = Some (Store.OPruefungsleistung p)
              ∧ Pruefungsleistung.typ p = typ
              ∧ Pruefungsleistung.note p = Methoden.kw_note kw
              ∧ Pruefungsleistung.datum p = Methoden.kw_datum kw
              ∧ Pruefungsleistung.versuch p
                = default 1 (Methoden.kw_versuch kw)
              ∧ Pruefungsleistung.status p = "Offen")
      ∧ ∀ l', l' ≠ l → Store.objs st' !! l' = Store.objs st !! l'
  | Raise e => e = TypeError
  end.
Proof.
  unfold Methoden.create_pruefungsleistung.
  destruct typ, (Methoden.kw_dauer_minuten kw),
    (Methoden.kw_anzahl_aufgaben kw), (Methoden.kw_bearbeitungszeit_wochen kw);
    simpl; try reflexivity;
    (split; [reflexivity |]; split;
     [eexists; split; [apply lookup_insert_eq | repeat split] |
      intros l' Hl'; apply lookup_insert_ne; congruence]).
Qed.

(** The defaults of the three classes. *)
Lemma create_pruefungsleistung_defaults (st : Store.t) (self : Store.loc) :
  let keine := Methoden.Kwargs None None None None None None in
  Methoden.create_pruefungsleistung self KLAUSUR keine st
  = Store.alloc (Store.OPruefungsleistung (Klausur 120 None None 1)) st
  ∧ Methoden.create_pruefungsleistung self ADVANCED_WORKBOOK keine st
    = Store.alloc (Store.OPruefungsleistung (AdvancedWorkbook 4 None None 1)) st
  ∧ Methoden.create_pruefungsleistung self PORTFOLIO keine st
    = Store.alloc (Store.OPruefungsleistung (Portfolio 3 8 None None 1)) st.
Proof. repeat split. Qed.

(** ** The dictionaries *)

(** X21.  A grade given at construction is not reflected in the status the
    assessment reports: for a module whose one assessment was constructed
    with a grade of the scale other than 5.0, the dict of the module says
    ["Bestanden"] and carries the grade as average, while the dict of the
    assessment inside it says ["Offen"]. *)
Theorem to_dict_status_offen (titel : string) (ects : Z) (pflicht : bool)
    (dauer_minuten versuch : Z) (datum : option date) (g : float)
    (Hg : In g IUBewertungsmassstab.gueltige_noten)
    (H5 : eqb g (tenths 50) = false) :
  let pl := Klausur dauer_minuten (Some g) datum versuch in
  ∃ d,
    Modul.to_dict (Modul.mk titel ects pflicht [pl]) = Ok d
    ∧ dict_get "status" d = Some (VStr "Bestanden")
    ∧ dict_get "durchschnittsnote" d = Some (VFloat g)
    ∧ dict_get "pruefungsleistungen" d
      = Some (VList [Pruefungsleistung.to_dict pl])
    ∧ dict_get "status" (Pruefungsleistung.to_dict pl) = Some (VStr "Offen")
    ∧ dict_get "note" (Pruefungsleistung.to_dict pl) = Some (VFloat g).
Proof.
  intros pl. unfold Modul.to_dict.
  assert (Hn : Modul.get_durchschnittsnote (Modul.mk titel ects pflicht [pl])
               = Ok (Some g)
               ∧ Modul.get_status (Modul.mk titel ects pflicht [pl])
                 = BESTANDEN).
  { unfold Modul.get_status, Modul.get_durchschnittsnote, Modul.ist_bestanden,
      Pruefungsleistung.ist_bestanden, Pruefungsleistung.wurde_abgelegt.
    simpl. revert H5.
    rewrite gueltige_noten_tenths in Hg. simpl in Hg.
    repeat (destruct Hg as [<- | Hg];
            [vm_compute; intros H5; first [discriminate | split; reflexivity] |]).
    destruct Hg. }
  destruct Hn as [Hn Hs]. rewrite Hn, Hs. simpl.
  eexists. split; [reflexivity |]. repeat split.
Qed.

Lemma to_dict_status_offen_witness :
  ∃ d,
    Modul.to_dict (Beispiel.modul_mit_note "E-Health" 5 20) = Ok d
    ∧ dict_get "status" d = Some (VStr "Bestanden")
    ∧ dict_get "status"
        (Pruefungsleistung.to_dict (Klausur 120 (Some (tenths 20)) None 1))
      = Some (VStr "Offen").
Proof.
  destruct (to_dict_status_offen "E-Health" 5 true 120 1 None (tenths 20))
    as (d & Hd & Hs & _ & _ & Ho & _).
  - vm_compute. do 3 right. left. reflexivity.
  - reflexivity.
  - exists d. split; [exact Hd |]. split; [exact Hs | exact Ho].
Defined.

(** X22.  The dashboard data are either the dict with the single key
    ["error"] or a dict with the keys ["user"], ["studiengang"] and
    ["fortschritt"]; in the latter the four entries of ["fortschritt"] are
    present and equal the entries of the same names in ["studiengang"]. *)
Theorem get_dashboard_data_gestalt (self : DashboardController.baum)
    (d : pyval)
    (Hd : DashboardController.get_dashboard_data self = Ok (Some d)) :
  d = VDict [ ("error", VStr "Kein Studiengang gefunden") ]
  ∨ ∃ u sgd f,
      d = VDict [ ("user", u); ("studiengang", sgd); ("fortschritt", f) ]
      ∧ Forall (fun k => is_Some (dict_get k f)
                         ∧ dict_get k f = dict_get k sgd)
          [ "gesamt_ects"; "gesamtnote"; "im_zeitplan"; "ziel_erreicht" ].
Proof.
  unfold DashboardController.get_dashboard_data in Hd.
  destruct (DashboardController.current_user self) as [cu |];
    [| discriminate].
  unfold User.zeige_dashboard in Hd.
  destruct (User.get_aktueller_studiengang cu) as [sg |].
  - right. unfold Studiengang.to_dict in Hd.
    destruct (Studiengang.berechne_gesamtnote sg) as [g | e];
      [| discriminate].
    destruct (Studiengang.ziel_erreicht sg) as [z | e]; [| discriminate].
    destruct (mapR Semester.to_dict (Studiengang.semester sg)) as [ds | e];
      [| discriminate].
    simpl in Hd. injection Hd as <-.
    eexists _, _, _. split; [reflexivity |].
    repeat constructor; eexists; reflexivity.
  - left. simpl in Hd. injection Hd as <-. reflexivity.
Qed.

Lemma get_dashboard_data_gestalt_witness :
  ∃ d,
    DashboardController.get_dashboard_data
      (DashboardController.mk ∅ (Some Beispiel.user_zwei_module))
    = Ok (Some d)
    ∧ (d = VDict [ ("error", VStr "Kein Studiengang gefunden") ]
       ∨ ∃ u sgd f,
           d = VDict [ ("user", u); ("studiengang", sgd); ("fortschritt", f) ]
           ∧ Forall (fun k => is_Some (dict_get k f)
                              ∧ dict_get k f = dict_get k sgd)
               [ "gesamt_ects"; "gesamtnote"; "im_zeitplan";
                 "ziel_erreicht" ]).
Proof.
  destruct (DashboardController.get_dashboard_data
              (DashboardController.mk ∅ (Some Beispiel.user_zwei_module)))
    as [[d |] | e] eqn:Hd; try (vm_compute in Hd; discriminate).
  exists d. split; [reflexivity |].
  exact (get_dashboard_data_gestalt _ d Hd).
Defined.
